(** * terra_sdk.core.tx: transaction objects and their document encoding

    A shallow embedding of [terra_sdk/core/tx.py].  Python values that travel
    through documents are an inductive type, exceptions are an error monad,
    the classes of the module are records, and the in-place appends of
    [Tx.append_empty_signatures] are explicit state passing. *)

From Stdlib Require Import List String Ascii ZArith Bool Lia.
From Stdlib Require Import DecimalString DecimalPos DecimalZ.
Import ListNotations.
Open Scope string_scope.
Open Scope Z_scope.
Open Scope list_scope.
Set Warnings "-register-all".

(** ** Python values and exceptions *)

(** The values a document is made of ([None], [int], [str], [list], [dict]
    with string keys, in insertion order). *)
Inductive value : Type :=
| VNone
| VInt (z : Z)
| VStr (s : string)
| VList (l : list value)
| VDict (d : list (string * value)).

(** The exceptions the module can raise; [OtherError] stands for whatever a
    collaborator outside this module raises. *)
Inductive exn : Type :=
| KeyError (key : string)
| TypeError
| AttributeError
| NotImplementedError
| OtherError (name : string).

Inductive result (A : Type) : Type :=
| Ok (a : A)
| Raise (e : exn).
Arguments Ok {A} a.
Arguments Raise {A} e.

Definition bind {A B : Type} (m : result A) (k : A -> result B) : result B :=
  match m with
  | Ok a => k a
  | Raise e => Raise e
  end.

Notation "x <- m ;; k" := (bind m (fun x => k))
  (at level 61, m at next level, right associativity).

(** A list comprehension whose element expression may raise: elements are
    evaluated left to right and the first exception ends the evaluation. *)
Fixpoint mapM {A B : Type} (f : A -> result B) (l : list A) : result (list B) :=
  match l with
  | [] => Ok []
  | a :: rest =>
      b <- f a ;;
      bs <- mapM f rest ;;
      Ok (b :: bs)
  end.

(** A [for] loop that threads a mutable local through its body. *)
Fixpoint foldM {A S : Type} (f : S -> A -> result S) (s : S) (l : list A) : result S :=
  match l with
  | [] => Ok s
  | a :: rest =>
      s' <- f s a ;;
      foldM f s' rest
  end.

(** [enumerate]. *)
Fixpoint enumerate_from {A : Type} (i : Z) (l : list A) : list (Z * A) :=
  match l with
  | [] => []
  | a :: rest => (i, a) :: enumerate_from (i + 1) rest
  end.

Definition enumerate {A : Type} (l : list A) : list (Z * A) := enumerate_from 0 l.

(** ** Dictionaries

    A Python [dict] keeps its keys in insertion order and holds each key
    once: an association list in which assignment replaces in place or
    appends at the end. *)
Section Dict.

Context {K V : Type} (eqb : K -> K -> bool).

Fixpoint dict_lookup (k : K) (d : list (K * V)) : option V :=
  match d with
  | [] => None
  | (k', v) :: rest => if eqb k k' then Some v else dict_lookup k rest
  end.

Definition dict_mem (k : K) (d : list (K * V)) : bool :=
  match dict_lookup k d with
  | Some _ => true
  | None => false
  end.

Fixpoint dict_set (k : K) (v : V) (d : list (K * V)) : list (K * V) :=
  match d with
  | [] => [(k, v)]
  | (k', v') :: rest =>
      if eqb k k' then (k', v) :: rest else (k', v') :: dict_set k v rest
  end.

Fixpoint dict_remove (k : K) (d : list (K * V)) : list (K * V) :=
  match d with
  | [] => []
  | (k', v') :: rest =>
      if eqb k k' then rest else (k', v') :: dict_remove k rest
  end.

End Dict.

(** [del d[k]]. *)
Definition py_del (k : string) (d : list (string * value)) : result (list (string * value)) :=
  if dict_mem String.eqb k d then Ok (dict_remove String.eqb k d) else Raise (KeyError k).

(** ** Built-in operations on values *)

(** Truth value testing: [None], [0], the empty string, list and dict are false. *)
Definition py_bool (v : value) : bool :=
  match v with
  | VNone => false
  | VInt z => negb (z =? 0)
  | VStr s => negb (s =? "")%string
  | VList l => match l with [] => false | _ => true end
  | VDict d => match d with [] => false | _ => true end
  end.

(** Truth value of an attribute that holds [None] or a list of objects. *)
Definition opt_list_bool {A : Type} (o : option (list A)) : bool :=
  match o with
  | Some (_ :: _) => true
  | _ => false
  end.

(** Truth value of an attribute that holds [None] or an object of a class
    without [__bool__] and [__len__]. *)
Definition opt_obj_bool {A : Type} (o : option A) : bool :=
  match o with
  | Some _ => true
  | None => false
  end.

(** [v[k]] for a string [k]. *)
Definition py_getitem (v : value) (k : string) : result value :=
  match v with
  | VDict d =>
      match dict_lookup String.eqb k d with
      | Some x => Ok x
      | None => Raise (KeyError k)
      end
  | _ => Raise TypeError
  end.

(** [v.get(k)]. *)
Definition py_get (v : value) (k : string) : result value :=
  match v with
  | VDict d =>
      match dict_lookup String.eqb k d with
      | Some x => Ok x
      | None => Ok VNone
      end
  | _ => Raise AttributeError
  end.

(** The elements a [for] loop takes from [v]: the items of a list, the keys
    of a dict, the characters of a string. *)
Definition py_iter (v : value) : result (list value) :=
  match v with
  | VList l => Ok l
  | VDict d => Ok (map (fun kv => VStr (fst kv)) d)
  | VStr s => Ok (map (fun c => VStr (String c EmptyString)) (list_ascii_of_string s))
  | VNone | VInt _ => Raise TypeError
  end.

(** [str(z)] for an [int]. *)
Definition str (z : Z) : string := NilZero.string_of_int (Z.to_int z).

(** Hashable values, as keys of a dict built by the module. *)
Inductive hkey : Type :=
| KNone
| KInt (z : Z)
| KStr (s : string).

Definition hkey_eqb (a b : hkey) : bool :=
  match a, b with
  | KNone, KNone => true
  | KInt x, KInt y => x =? y
  | KStr x, KStr y => (x =? y)%string
  | _, _ => false
  end.

(** Hashing a value for use as a key: lists and dicts are unhashable. *)
Definition py_hash (v : value) : result hkey :=
  match v with
  | VNone => Ok KNone
  | VInt z => Ok (KInt z)
  | VStr s => Ok (KStr s)
  | VList _ | VDict _ => Raise TypeError
  end.

(** ** The classes of the module *)

(** Modelled from the spec: [terra_sdk.core.public_key] is not among the
    sources.  A public key is polymorphic; the module tells a legacy-amino
    multisig key, with its constituent keys, from any other key, and builds
    the simple key over the empty string as the placeholder of a missing
    key. *)
Inductive PublicKey : Type :=
| SimplePublicKey (key : string)
| LegacyAminoPubKey (public_keys : list PublicKey).

(** Modelled from the spec: the sign modes, an enumeration of the protobuf
    bindings ([SignMode = SignMode_pb]). *)
Inductive SignMode : Type :=
| SIGN_MODE_UNSPECIFIED
| SIGN_MODE_DIRECT
| SIGN_MODE_TEXTUAL
| SIGN_MODE_LEGACY_AMINO_JSON.

(** An attribute whose declared class is [A]: it holds an object of that
    class, or, when [from_data] stored a document entry as it came, that entry. *)
Inductive attr_of (A : Type) : Type :=
| Obj (a : A)
| Doc (v : value).
Arguments Obj {A} a.
Arguments Doc {A} v.

Record SignerData : Type := mkSignerData {
  signer_sequence : Z;
  signer_public_key : option PublicKey
}.

Record CompactBitArray : Type := mkCompactBitArray {
  extra_bits_stored : Z;
  elems : value
}.

Record ModeInfoSingle : Type := mkModeInfoSingle {
  mode : attr_of SignMode
}.

Inductive ModeInfo : Type :=
| mkModeInfo (single_mode : option ModeInfoSingle) (multi_mode : option ModeInfoMulti)
with ModeInfoMulti : Type :=
| mkModeInfoMulti (bitarray : attr_of CompactBitArray) (mode_infos : attr_of (list ModeInfo)).

Definition single_mode (m : ModeInfo) : option ModeInfoSingle :=
  match m with mkModeInfo s _ => s end.

Definition multi_mode (m : ModeInfo) : option ModeInfoMulti :=
  match m with mkModeInfo _ m' => m' end.

Record SignerInfo : Type := mkSignerInfo {
  public_key : PublicKey;
  sequence : Z;
  mode_info : ModeInfo
}.

(** [Dict[str, Dict[str, List[str]]]]: the index of a log's events. *)
Definition event_index : Type := list (hkey * list (hkey * list value)).

Record TxLog : Type := mkTxLog {
  msg_index : Z;
  log : value;
  events : value;
  events_by_type : event_index
}.

(** Protobuf messages of the mode info, as far as [to_proto] fills them:
    [single] and [multi] are the two members of a one-of, unset in a fresh
    message. *)
Record ModeInfoSingle_pb : Type := mkModeInfoSingle_pb {
  pb_mode : Z
}.

Record ModeInfo_pb (Multi_pb : Type) : Type := mkModeInfo_pb {
  pb_single : option ModeInfoSingle_pb;
  pb_multi : option Multi_pb
}.
Arguments mkModeInfo_pb {Multi_pb} pb_single pb_multi.
Arguments pb_single {Multi_pb} _.
Arguments pb_multi {Multi_pb} _.

(** What the module takes from outside: the message and fee classes with
    their document codecs, the codec of public keys, the built-in [int] that
    attrs runs as a converter, and the methods that [ModeInfoMulti] and
    [TxLog] do not define themselves and so look up in their base class
    [JSONSerializable]. *)
Class Collaborators : Type := {
  Msg : Type;
  Msg_to_data : Msg -> result value;
  Msg_from_data : value -> result Msg;
  Fee : Type;
  Fee_to_data : Fee -> result value;
  Fee_from_data : value -> result Fee;
  PublicKey_to_data : PublicKey -> result value;
  PublicKey_from_data : value -> result PublicKey;
  py_int : value -> result Z;
  ModeInfoMulti_todata : ModeInfoMulti -> result value;
  ModeInfoMulti_pb : Type;
  ModeInfoMulti_to_proto : ModeInfoMulti -> result ModeInfoMulti_pb;
  TxLog_to_data : TxLog -> result value
}.

Section Classes.

Context {C : Collaborators}.

Record TxBody : Type := mkTxBody {
  messages : list Msg;
  memo : value;
  timeout_height : value
}.

Record AuthInfo : Type := mkAuthInfo {
  signer_infos : list SignerInfo;
  fee : Fee
}.

Record Tx : Type := mkTx {
  body : TxBody;
  auth_info : AuthInfo;
  signatures : value
}.

Record TxInfo : Type := mkTxInfo {
  height : Z;
  txhash : value;
  rawlog : value;
  logs : option (list TxLog);
  gas_wanted : Z;
  gas_used : Z;
  tx : Tx;
  timestamp : value;
  code : value;
  codespace : value
}.

(** ** Event logs *)

(** One turn of the inner loop of [parse_events_by_type]: the containers of
    [ev["type"]] and [att["key"]] are created when missing, and the value of
    the attribute is appended to the list found there. *)
Definition index_attribute (events : event_index) (ev att : value) : result event_index :=
  ty <- py_getitem ev "type" ;;
  ty <- py_hash ty ;;
  let events :=
    if dict_mem hkey_eqb ty events then events else dict_set hkey_eqb ty [] events in
  k <- py_getitem att "key" ;;
  k <- py_hash k ;;
  let of_type :=
    match dict_lookup hkey_eqb ty events with Some d => d | None => [] end in
  let of_type :=
    if dict_mem hkey_eqb k of_type then of_type else dict_set hkey_eqb k [] of_type in
  v <- py_get att "value" ;;
  let values :=
    match dict_lookup hkey_eqb k of_type with Some l => l | None => [] end in
  Ok (dict_set hkey_eqb ty (dict_set hkey_eqb k (values ++ [v]) of_type) events).

Definition index_event (events : event_index) (ev : value) : result event_index :=
  attributes <- py_getitem ev "attributes" ;;
  attributes <- py_iter attributes ;;
  foldM (fun events att => index_attribute events ev att) events attributes.

Definition parse_events_by_type (event_data : value) : result event_index :=
  event_data <- py_iter event_data ;;
  foldM index_event [] event_data.

(** [TxLog(msg_index=..., log=..., events=...)]: the generated initialiser
    followed by [__attrs_post_init__]. *)
Definition TxLog_init (msg_index : Z) (log events : value) : result TxLog :=
  events_by_type <- parse_events_by_type events ;;
  Ok (mkTxLog msg_index log events events_by_type).

Definition parse_tx_logs (logs : value) : result (option (list TxLog)) :=
  if py_bool logs then
    items <- py_iter logs ;;
    parsed <- mapM (fun il : Z * value =>
                      let (i, log) := il in
                      l <- py_get log "log" ;;
                      e <- py_get log "events" ;;
                      TxLog_init i l e)
                   (enumerate items) ;;
    Ok (Some parsed)
  else Ok None.

(** ** Authorization *)

Definition CompactBitArray_from_data (data : value) : result CompactBitArray :=
  data <- py_getitem data "value" ;;
  e <- py_getitem data "extra_bits_stored" ;;
  el <- py_getitem data "elems" ;;
  e <- py_int e ;;
  Ok (mkCompactBitArray e el).

(** [raise NotImplementedError # TODO] *)
Definition CompactBitArray_from_bits (len : Z) : result CompactBitArray :=
  Raise NotImplementedError.

(** The body is a dict display that is not returned: the call yields [None]. *)
Definition ModeInfoSingle_to_data (self : ModeInfoSingle) : value := VNone.

Definition ModeInfoSingle_from_data (data : value) : result ModeInfoSingle :=
  data <- py_getitem data "value" ;;
  m <- py_getitem data "mode" ;;
  Ok (mkModeInfoSingle (Doc m)).

(** [proto.mode = 1], whatever [self.mode] is. *)
Definition ModeInfoSingle_to_proto (self : ModeInfoSingle) : ModeInfoSingle_pb :=
  mkModeInfoSingle_pb 1.

Definition ModeInfoMulti_from_data (data : value) : result ModeInfoMulti :=
  data <- py_getitem data "value" ;;
  b <- py_getitem data "bitarray" ;;
  m <- py_getitem data "mode_infos" ;;
  Ok (mkModeInfoMulti (Doc b) (Doc m)).

Definition ModeInfo_to_data (self : ModeInfo) : result value :=
  single <- match single_mode self with
            | Some s => Ok (ModeInfoSingle_to_data s)
            | None => Ok VNone
            end ;;
  multi <- match multi_mode self with
           | Some m => ModeInfoMulti_todata m
           | None => Ok VNone
           end ;;
  Ok (VDict [("single", single); ("multi", multi)]).

Definition ModeInfo_from_data (data : value) : result ModeInfo :=
  data <- py_getitem data "value" ;;
  single <- (c <- py_getitem data "single" ;;
             if py_bool c then
               d <- py_getitem data "single" ;;
               s <- ModeInfoSingle_from_data d ;;
               Ok (Some s)
             else Ok None) ;;
  multi <- (c <- py_getitem data "multi" ;;
            if py_bool c then
              d <- py_getitem data "multi" ;;
              m <- ModeInfoMulti_from_data d ;;
              Ok (Some m)
            else Ok None) ;;
  Ok (mkModeInfo single multi).

(** [self.single_mode] decides alone; with no single mode the method is
    looked up on [self.multi_mode], which fails on [None]. *)
Definition ModeInfo_to_proto (self : ModeInfo) : result (ModeInfo_pb ModeInfoMulti_pb) :=
  let proto := mkModeInfo_pb None None in
  match single_mode self with
  | Some s => Ok (mkModeInfo_pb (Some (ModeInfoSingle_to_proto s)) (pb_multi proto))
  | None =>
      match multi_mode self with
      | Some m =>
          p <- ModeInfoMulti_to_proto m ;;
          Ok (mkModeInfo_pb (pb_single proto) (Some p))
      | None => Raise AttributeError
      end
  end.

Definition SignerInfo_to_data (self : SignerInfo) : result value :=
  pk <- PublicKey_to_data (public_key self) ;;
  mi <- ModeInfo_to_data (mode_info self) ;;
  Ok (VDict [("public_key", pk); ("sequence", VInt (sequence self)); ("mode_info", mi)]).

Definition SignerInfo_from_data (data : value) : result SignerInfo :=
  data <- py_getitem data "value" ;;
  pk <- (d <- py_getitem data "public_key" ;; PublicKey_from_data d) ;;
  s <- py_getitem data "sequence" ;;
  mi <- (d <- py_getitem data "mode_info" ;; ModeInfo_from_data d) ;;
  s <- py_int s ;;
  Ok (mkSignerInfo pk s mi).

Definition AuthInfo_to_data (self : AuthInfo) : result value :=
  sis <- mapM SignerInfo_to_data (signer_infos self) ;;
  f <- Fee_to_data (fee self) ;;
  Ok (VDict [("signer_infos", VList sis); ("fee", f)]).

Definition AuthInfo_from_data (data : value) : result AuthInfo :=
  data <- py_getitem data "value" ;;
  sis <- (d <- py_getitem data "signer_infos" ;;
          l <- py_iter d ;;
          mapM SignerInfo_from_data l) ;;
  f <- (d <- py_getitem data "fee" ;; Fee_from_data d) ;;
  Ok (mkAuthInfo sis f).

(** ** Transactions *)

Definition TxBody_to_data (self : TxBody) : result value :=
  ms <- mapM Msg_to_data (messages self) ;;
  Ok (VDict [("messages", VList ms);
             ("memo", if py_bool (memo self) then memo self else VStr "");
             ("timeout_height",
              if py_bool (timeout_height self) then timeout_height self else VInt 0)]).

Definition TxBody_from_data (data : value) : result TxBody :=
  data <- py_getitem data "value" ;;
  ms <- (d <- py_getitem data "messages" ;;
         l <- py_iter d ;;
         mapM Msg_from_data l) ;;
  m <- py_getitem data "memo" ;;
  t <- py_getitem data "timeout_height" ;;
  Ok (mkTxBody ms m t).

Definition Tx_to_data (self : Tx) : result value :=
  b <- TxBody_to_data (body self) ;;
  a <- AuthInfo_to_data (auth_info self) ;;
  Ok (VDict [("body", b); ("auth_info", a); ("signatures", signatures self)]).

Definition Tx_from_data (data : value) : result Tx :=
  data <- py_getitem data "value" ;;
  b <- (d <- py_getitem data "body" ;; TxBody_from_data d) ;;
  a <- (d <- py_getitem data "auth_info" ;; AuthInfo_from_data d) ;;
  s <- py_getitem data "signatures" ;;
  Ok (mkTx b a s).

(** [ModeInfoMulti(bitarray)]: the initialiser takes [bitarray] and
    [mode_infos], neither with a default, so the call with one argument
    raises and yields no object. *)
Definition ModeInfoMulti_init1 (bitarray : CompactBitArray) : result Empty_set :=
  Raise TypeError.

(** The [SignerInfo] that [append_empty_signatures] builds for one signer. *)
Definition empty_signer_info (signer : SignerData) : result SignerInfo :=
  match signer_public_key signer with
  | Some pk =>
      match pk with
      | LegacyAminoPubKey public_keys =>
          bitarray <- CompactBitArray_from_bits (Z.of_nat (List.length public_keys)) ;;
          multi <- ModeInfoMulti_init1 bitarray ;;
          match multi with end
      | _ =>
          Ok (mkSignerInfo pk (signer_sequence signer)
                (mkModeInfo (Some (mkModeInfoSingle (Obj SIGN_MODE_DIRECT))) None))
      end
  | None =>
      Ok (mkSignerInfo (SimplePublicKey "") (signer_sequence signer)
            (mkModeInfo (Some (mkModeInfoSingle (Obj SIGN_MODE_DIRECT))) None))
  end.

(** [l.append(x)] on an attribute that may hold any value. *)
Definition py_append (l x : value) : result value :=
  match l with
  | VList xs => Ok (VList (xs ++ [x]))
  | _ => Raise AttributeError
  end.

Definition with_signer_info (self : Tx) (si : SignerInfo) : Tx :=
  mkTx (body self)
       (mkAuthInfo (signer_infos (auth_info self) ++ [si]) (fee (auth_info self)))
       (signatures self).

Definition with_signatures (self : Tx) (sigs : value) : Tx :=
  mkTx (body self) (auth_info self) sigs.

(** The method mutates [self]: the result is the transaction as the call
    leaves it, together with the outcome of the call. *)
Fixpoint append_empty_signatures (self : Tx) (signers : list SignerData) : Tx * result unit :=
  match signers with
  | [] => (self, Ok tt)
  | signer :: rest =>
      match empty_signer_info signer with
      | Raise e => (self, Raise e)
      | Ok signer_info =>
          let self := with_signer_info self signer_info in
          match py_append (signatures self) (VStr " ") with
          | Raise e => (self, Raise e)
          | Ok sigs => append_empty_signatures (with_signatures self sigs) rest
          end
      end
  end.

(** ** Transaction receipts *)

Definition TxInfo_to_data (self : TxInfo) : result value :=
  ls <- (if opt_list_bool (logs self) then
           ds <- mapM TxLog_to_data (match logs self with Some l => l | None => [] end) ;;
           Ok (VList ds)
         else Ok VNone) ;;
  t <- Tx_to_data (tx self) ;;
  let data := [("height", VStr (str (height self)));
               ("txhash", txhash self);
               ("raw_log", rawlog self);
               ("logs", ls);
               ("gas_wanted", VStr (str (gas_wanted self)));
               ("gas_used", VStr (str (gas_used self)));
               ("timestamp", timestamp self);
               ("tx", t);
               ("code", code self);
               ("codespace", codespace self)] in
  data <- (if negb (opt_list_bool (logs self)) then py_del "logs" data else Ok data) ;;
  data <- (if negb (py_bool (code self)) then py_del "code" data else Ok data) ;;
  data <- (if negb (py_bool (codespace self)) then py_del "codespace" data else Ok data) ;;
  Ok (VDict data).

Definition TxInfo_from_data (data : value) : result TxInfo :=
  h <- py_getitem data "height" ;;
  th <- py_getitem data "txhash" ;;
  rl <- py_getitem data "raw_log" ;;
  ls <- (l <- py_get data "logs" ;; parse_tx_logs l) ;;
  gw <- py_getitem data "gas_wanted" ;;
  gu <- py_getitem data "gas_used" ;;
  t <- (d <- py_getitem data "tx" ;; Tx_from_data d) ;;
  ts <- py_getitem data "timestamp" ;;
  c <- py_get data "code" ;;
  cs <- py_get data "codespace" ;;
  h <- py_int h ;;
  gw <- py_int gw ;;
  gu <- py_int gu ;;
  Ok (mkTxInfo h th rl ls gw gu t ts c cs).

(** [from_data(to_data(x))] for each class with both methods. *)
Definition Tx_roundtrip (x : Tx) : result Tx :=
  d <- Tx_to_data x ;; Tx_from_data d.

Definition TxBody_roundtrip (x : TxBody) : result TxBody :=
  d <- TxBody_to_data x ;; TxBody_from_data d.

Definition AuthInfo_roundtrip (x : AuthInfo) : result AuthInfo :=
  d <- AuthInfo_to_data x ;; AuthInfo_from_data d.

Definition SignerInfo_roundtrip (x : SignerInfo) : result SignerInfo :=
  d <- SignerInfo_to_data x ;; SignerInfo_from_data d.

Definition ModeInfo_roundtrip (x : ModeInfo) : result ModeInfo :=
  d <- ModeInfo_to_data x ;; ModeInfo_from_data d.

Definition TxInfo_roundtrip (x : TxInfo) : result TxInfo :=
  d <- TxInfo_to_data x ;; TxInfo_from_data d.

End Classes.

(** ** Serialization to protobuf messages *)

(** What [to_proto] takes from outside beside the above: the packing of a
    message and of a public key into an [Any], the message of a fee, and the
    UTF-8 encoding of a string into bytes. *)
Class ProtoCollaborators {C : Collaborators} : Type := {
  Any_pb : Type;
  Msg_pack_any : Msg -> result Any_pb;
  PublicKey_pack_any : PublicKey -> result Any_pb;
  Fee_pb : Type;
  Fee_to_proto : Fee -> result Fee_pb;
  bytes : Type;
  str_encode : string -> bytes
}.

Section Proto.

Context {C : Collaborators} {P : ProtoCollaborators}.

(** The protobuf messages, as far as [to_proto] fills them. *)
Record SignerInfo_pb : Type := mkSignerInfo_pb {
  pb_public_key : Any_pb;
  pb_sequence : Z;
  pb_mode_info : ModeInfo_pb ModeInfoMulti_pb
}.

Record AuthInfo_pb : Type := mkAuthInfo_pb {
  pb_fee : Fee_pb;
  pb_signer_infos : list SignerInfo_pb
}.

Record TxBody_pb : Type := mkTxBody_pb {
  pb_messages : list Any_pb;
  pb_memo : value;
  pb_timeout_height : value
}.

Record Tx_pb : Type := mkTx_pb {
  pb_body : TxBody_pb;
  pb_auth_info : AuthInfo_pb;
  pb_signatures : list bytes
}.

Definition SignerInfo_to_proto (self : SignerInfo) : result SignerInfo_pb :=
  pk <- PublicKey_pack_any (public_key self) ;;
  mi <- ModeInfo_to_proto (mode_info self) ;;
  Ok (mkSignerInfo_pb pk (sequence self) mi).

Definition AuthInfo_to_proto (self : AuthInfo) : result AuthInfo_pb :=
  f <- Fee_to_proto (fee self) ;;
  sis <- mapM SignerInfo_to_proto (signer_infos self) ;;
  Ok (mkAuthInfo_pb f sis).

(** [self.memo or ''] is the memo when it tests true; the timeout height
    is assigned as it is. *)
Definition TxBody_to_proto (self : TxBody) : result TxBody_pb :=
  ms <- mapM Msg_pack_any (messages self) ;;
  Ok (mkTxBody_pb ms
        (if py_bool (memo self) then memo self else VStr "")
        (timeout_height self)).

(** [sig.encode('utf-8')]: only a string has the method. *)
Definition py_encode (sig : value) : result bytes :=
  match sig with
  | VStr s => Ok (str_encode s)
  | _ => Raise AttributeError
  end.

Definition Tx_to_proto (self : Tx) : result Tx_pb :=
  b <- TxBody_to_proto (body self) ;;
  a <- AuthInfo_to_proto (auth_info self) ;;
  sigs <- (l <- py_iter (signatures self) ;; mapM py_encode l) ;;
  Ok (mkTx_pb b a sigs).

End Proto.

(** * Definitions for the statements *)

(** ** Well-formed raw logs

    The records that the chain returns, as typed data: an attribute has a
    key and may lack its value, an event has a type and attributes, a log
    record may lack its log text.  [*_doc] is the document of a record. *)
Record raw_attribute : Type := mkRawAttribute {
  raw_key : string;
  raw_value : option value
}.

Record raw_event : Type := mkRawEvent {
  raw_type : string;
  raw_attributes : list raw_attribute
}.

Record raw_log : Type := mkRawLog {
  raw_log_text : option value;
  raw_events : list raw_event
}.

Definition raw_attribute_doc (a : raw_attribute) : value :=
  VDict (("key", VStr (raw_key a)) ::
         match raw_value a with
         | Some v => [("value", v)]
         | None => []
         end).

Definition raw_event_doc (e : raw_event) : value :=
  VDict [("type", VStr (raw_type e));
         ("attributes", VList (map raw_attribute_doc (raw_attributes e)))].

Definition raw_events_doc (es : list raw_event) : value :=
  VList (map raw_event_doc es).

Definition raw_log_doc (r : raw_log) : value :=
  VDict (match raw_log_text r with
         | Some t => [("log", t)]
         | None => []
         end ++ [("events", raw_events_doc (raw_events r))]).

(** The value that [att.get("value")] finds. *)
Definition attribute_value (a : raw_attribute) : value :=
  match raw_value a with
  | Some v => v
  | None => VNone
  end.

(** The indexing rule in the words of the specification: append [v] to
    [events_by_type[ty][k]], creating the nested containers on first use. *)
Definition append_value (ix : event_index) (ty k : string) (v : value) : event_index :=
  let ix := if dict_mem hkey_eqb (KStr ty) ix then ix else dict_set hkey_eqb (KStr ty) [] ix in
  let of_type := match dict_lookup hkey_eqb (KStr ty) ix with Some d => d | None => [] end in
  let of_type :=
    if dict_mem hkey_eqb (KStr k) of_type then of_type
    else dict_set hkey_eqb (KStr k) [] of_type in
  let values := match dict_lookup hkey_eqb (KStr k) of_type with Some l => l | None => [] end in
  dict_set hkey_eqb (KStr ty) (dict_set hkey_eqb (KStr k) (values ++ [v]) of_type) ix.

(** Iterate events in order and, for each event, its attributes in order. *)
Definition events_by_type_spec (es : list raw_event) : event_index :=
  fold_left
    (fun ix e =>
       fold_left
         (fun ix a => append_value ix (raw_type e) (raw_key a) (attribute_value a))
         (raw_attributes e) ix)
    es [].

(** [events_by_type[ty][k]], when both containers exist. *)
Definition index_lookup (ix : event_index) (ty k : string) : option (list value) :=
  match dict_lookup hkey_eqb (KStr ty) ix with
  | Some of_type => dict_lookup hkey_eqb (KStr k) of_type
  | None => None
  end.

(** The values of the attributes with key [k] in the events of type [ty],
    in the order of the input and with repetitions. *)
Definition values_of (es : list raw_event) (ty k : string) : list value :=
  flat_map
    (fun e =>
       if (raw_type e =? ty)%string then
         flat_map
           (fun a => if (raw_key a =? k)%string then [attribute_value a] else [])
           (raw_attributes e)
       else [])
    es.

(** What a lookup finds in an index that holds the values [vs]: nothing
    when there are none, since a list is created only to be appended to. *)
Definition present (vs : list value) : option (list value) :=
  match vs with
  | [] => None
  | _ => Some vs
  end.

(** The value that [log.get("log")] finds. *)
Definition log_text (r : raw_log) : value :=
  match raw_log_text r with
  | Some t => t
  | None => VNone
  end.

(** The [TxLog] of the record at position [i]. *)
Definition TxLog_of (i : Z) (r : raw_log) : TxLog :=
  mkTxLog i (log_text r) (raw_events_doc (raw_events r))
          (events_by_type_spec (raw_events r)).

(** ** Shape of an index *)

(** The dict found under one event type: each key once, no empty list. *)
Definition values_by_key_ok (d : list (hkey * list value)) : Prop :=
  NoDup (map fst d) /\ Forall (fun kv => snd kv <> []) d.

(** An index as a well-formed dict of dicts of lists: each type once, under
    each type at least one key, each key once, under each key at least one
    value. *)
Definition index_ok (ix : event_index) : Prop :=
  NoDup (map fst ix) /\
  Forall (fun e => snd e <> [] /\ values_by_key_ok (snd e)) ix.

(** ** Signers *)

Definition single_direct : ModeInfo :=
  mkModeInfo (Some (mkModeInfoSingle (Obj SIGN_MODE_DIRECT))) None.

(** Exactly one of the two variants is populated. *)
Definition well_formed_ModeInfo (m : ModeInfo) : bool :=
  xorb (opt_obj_bool (single_mode m)) (opt_obj_bool (multi_mode m)).

(** The signer infos built for a list of signers up to the first one whose
    construction raises, with the outcome of the loop. *)
Fixpoint built_signer_infos (signers : list SignerData) : list SignerInfo * result unit :=
  match signers with
  | [] => ([], Ok tt)
  | signer :: rest =>
      match empty_signer_info signer with
      | Raise e => ([], Raise e)
      | Ok si => let (sis, r) := built_signer_infos rest in (si :: sis, r)
      end
  end.

Definition is_multisig (signer : SignerData) : bool :=
  match signer_public_key signer with
  | Some (LegacyAminoPubKey _) => true
  | _ => false
  end.

(** Whether and how one turn of the loop raises does not depend on the
    index built so far. *)
Definition same_outcome {A : Type} (r r' : result A) : Prop :=
  match r, r' with
  | Ok _, Ok _ => True
  | Raise e, Raise e' => e = e'
  | _, _ => False
  end.

(** The key of the signer info built for a signer. *)
Definition signer_key (s : SignerData) : PublicKey :=
  match signer_public_key s with
  | Some pk => pk
  | None => SimplePublicKey ""
  end.

(** The document of the signer info built for a signer without a multisig
    key, given the document [pk] of its key. *)
Definition empty_signer_doc (s : SignerData) (pk : value) : value :=
  VDict [("public_key", pk);
         ("sequence", VInt (signer_sequence s));
         ("mode_info", VDict [("single", VNone); ("multi", VNone)])].

Section Statements.

Context {C : Collaborators}.

(** The logs that [to_data] encodes: those of a non-empty list. *)
Definition logs_or_empty (x : TxInfo) : list TxLog :=
  match logs x with
  | Some l => l
  | None => []
  end.

(** The entries of the document of [x], given the document [t] of its
    transaction and the documents [ds] of its logs. *)
Definition TxInfo_entries (x : TxInfo) (t : value) (ds : list value) : list (string * value) :=
  [("height", VStr (str (height x))); ("txhash", txhash x); ("raw_log", rawlog x)]
  ++ (if opt_list_bool (logs x) then [("logs", VList ds)] else [])
  ++ [("gas_wanted", VStr (str (gas_wanted x)));
      ("gas_used", VStr (str (gas_used x)));
      ("timestamp", timestamp x);
      ("tx", t)]
  ++ (if py_bool (code x) then [("code", code x)] else [])
  ++ (if py_bool (codespace x) then [("codespace", codespace x)] else []).

Definition with_code (x : TxInfo) (c : value) : TxInfo :=
  mkTxInfo (height x) (txhash x) (rawlog x) (logs x) (gas_wanted x) (gas_used x)
           (tx x) (timestamp x) c (codespace x).

(** The transaction after [sis] and as many placeholders were appended. *)
Definition extended (self : Tx) (sigs : list value) (sis : list SignerInfo) : Tx :=
  mkTx (body self)
       (mkAuthInfo (signer_infos (auth_info self) ++ sis) (fee (auth_info self)))
       (VList (sigs ++ repeat (VStr " ") (List.length sis))).

(** The body as [to_data] writes it: a memo that tests false is the empty
    string, a timeout height that tests false is 0. *)
Definition normal_body (x : TxBody) : TxBody :=
  mkTxBody (messages x)
           (if py_bool (memo x) then memo x else VStr "")
           (if py_bool (timeout_height x) then timeout_height x else VInt 0).

End Statements.

Section ProtoStatements.

Context {C : Collaborators} {P : ProtoCollaborators}.

(** The message of the signer info built for a signer without a multisig
    key, given the packed key. *)
Definition empty_signer_pb (s : SignerData) (pk : Any_pb) : SignerInfo_pb :=
  mkSignerInfo_pb pk (signer_sequence s)
                  (mkModeInfo_pb (Some (mkModeInfoSingle_pb 1)) None).

End ProtoStatements.

(** ** A concrete set of collaborators

    Used to run the module on concrete objects: a message and a fee are
    their own documents, a public key encodes to its kind, [int] reads an
    [int], and the two classes without methods of their own inherit none. *)
Definition sample_public_key_to_data (pk : PublicKey) : result value :=
  match pk with
  | SimplePublicKey k => Ok (VDict [("key", VStr k)])
  | LegacyAminoPubKey ks => Ok (VDict [("keys", VInt (Z.of_nat (List.length ks)))])
  end.

Definition sample_int (v : value) : result Z :=
  match v with
  | VInt z => Ok z
  | _ => Raise (OtherError "ValueError")
  end.

Definition sample_log_to_data (l : TxLog) : result value :=
  Ok (VDict [("msg_index", VInt (msg_index l)); ("log", log l); ("events", events l)]).

Definition sample : Collaborators := {|
  Msg := value;
  Msg_to_data := Ok;
  Msg_from_data := Ok;
  Fee := value;
  Fee_to_data := Ok;
  Fee_from_data := Ok;
  PublicKey_to_data := sample_public_key_to_data;
  PublicKey_from_data := fun _ => Ok (SimplePublicKey "");
  py_int := sample_int;
  ModeInfoMulti_todata := fun _ => Raise AttributeError;
  ModeInfoMulti_pb := unit;
  ModeInfoMulti_to_proto := fun _ => Raise AttributeError;
  TxLog_to_data := sample_log_to_data
|}.

(** Collaborators of [to_proto] for the concrete objects: a message, a key
    and a fee are packed as their documents, and bytes are strings. *)
Definition sample_proto : @ProtoCollaborators sample :=
  @Build_ProtoCollaborators sample
    value (fun m : @Msg sample => Ok (m : value))
    sample_public_key_to_data
    value (fun f : @Fee sample => Ok (f : value))
    string (fun s => s).

(** ** Concrete objects *)

Definition sample_fee : @Fee sample :=
  VDict [("amount", VList []); ("gas_limit", VStr "200000")].

(** A transaction with no message, the empty memo, timeout height zero, no
    signer and no signature. *)
Definition empty_tx : @Tx sample :=
  @mkTx sample (@mkTxBody sample [] (VStr "") (VInt 0))
        (@mkAuthInfo sample [] sample_fee) (VList []).

Definition two_key_multisig : PublicKey :=
  LegacyAminoPubKey [SimplePublicKey "A"; SimplePublicKey "B"].

Definition direct_signer_info : SignerInfo :=
  mkSignerInfo (SimplePublicKey "A") 5 single_direct.

Definition both_modes : ModeInfo :=
  mkModeInfo (Some (mkModeInfoSingle (Obj SIGN_MODE_DIRECT)))
             (Some (mkModeInfoMulti (Obj (mkCompactBitArray 2 (VStr "AA==")))
                                    (Obj [single_direct; single_direct]))).

(** A receipt of [empty_tx] with the given code and codespace and no logs. *)
Definition receipt (code codespace : value) : @TxInfo sample :=
  @mkTxInfo sample 100 (VStr "ABCD") (VStr "[]") None 200000 150000 empty_tx
            (VStr "2021-09-01T00:00:00Z") code codespace.

Definition transfer_example : list raw_event :=
  [mkRawEvent "transfer"
     [mkRawAttribute "amount" (Some (VStr "10"));
      mkRawAttribute "amount" (Some (VStr "20"))]].

(** A receipt of [empty_tx] with an empty list of logs, code 0 and the
    empty codespace. *)
Definition falsy_receipt : @TxInfo sample :=
  @mkTxInfo sample 100 (VStr "ABCD") (VStr "[]") (Some []) 200000 150000 empty_tx
            (VStr "2021-09-01T00:00:00Z") (VInt 0) (VStr "").

Definition empty_tx_doc : value :=
  VDict [("body", VDict [("messages", VList []); ("memo", VStr "");
                         ("timeout_height", VInt 0)]);
         ("auth_info", VDict [("signer_infos", VList []); ("fee", sample_fee)]);
         ("signatures", VList [])].

(** A document of a receipt as [from_data] reads it: the transaction and
    its parts under "value" keys, no code, no codespace, an empty list of
    logs. *)
Definition enveloped_receipt_doc : list (string * value) :=
  [("height", VInt 100); ("txhash", VStr "ABCD"); ("raw_log", VStr "[]");
   ("logs", VList []);
   ("gas_wanted", VInt 200000); ("gas_used", VInt 150000);
   ("tx", VDict [("value",
      VDict [("body", VDict [("value",
                VDict [("messages", VList []); ("memo", VStr "");
                       ("timeout_height", VInt 0)])]);
             ("auth_info", VDict [("value",
                VDict [("signer_infos", VList []); ("fee", sample_fee)])]);
             ("signatures", VList [])])]);
   ("timestamp", VStr "2021-09-01T00:00:00Z")].

(** A transaction with two signatures and no signer info. *)
Definition unmatched_tx : @Tx sample :=
  @mkTx sample (@mkTxBody sample [] VNone VNone)
        (@mkAuthInfo sample [] sample_fee) (VList [VStr "s1"; VStr "s2"]).

(** The document of a mode info that names the legacy amino mode. *)
Definition amino_mode_doc : list (string * value) :=
  [("value",
    VDict [("single", VDict [("value", VDict [("mode", VStr "SIGN_MODE_LEGACY_AMINO_JSON")])]);
           ("multi", VNone)])].

Definition amino_mode_info : ModeInfo :=
  mkModeInfo (Some (mkModeInfoSingle (Doc (VStr "SIGN_MODE_LEGACY_AMINO_JSON")))) None.

(** * Properties *)

(** ** The error monad and the loops *)

Lemma bind_Ok {A B : Type} (m : result A) (k : A -> result B) (b : B) :
  bind m k = Ok b -> exists a, m = Ok a /\ k a = Ok b.
Proof.
  destruct m as [a | e]; simpl; intros H; [eauto | discriminate].
Qed.

Lemma foldM_pure {A S : Type} (f : S -> A -> result S) (g : S -> A -> S) (l : list A) :
  (forall s a, In a l -> f s a = Ok (g s a)) ->
  forall s, foldM f s l = Ok (fold_left g l s).
Proof.
  induction l as [| a rest IH]; intros Hf s; simpl.
  - reflexivity.
  - rewrite (Hf s a (or_introl eq_refl)). simpl.
    apply IH. intros s' a' Hin. apply Hf. now right.
Qed.

Lemma mapM_pure {A B : Type} (f : A -> result B) (g : A -> B) (l : list A) :
  (forall a, In a l -> f a = Ok (g a)) -> mapM f l = Ok (map g l).
Proof.
  induction l as [| a rest IH]; intros Hf; simpl.
  - reflexivity.
  - rewrite (Hf a (or_introl eq_refl)). simpl.
    rewrite IH by (intros a' Hin; apply Hf; now right).
    reflexivity.
Qed.

Lemma enumerate_from_map {A B : Type} (g : A -> B) (i : Z) (l : list A) :
  enumerate_from i (map g l) = map (fun ia => (fst ia, g (snd ia))) (enumerate_from i l).
Proof.
  revert i. induction l as [| a rest IH]; intros i; simpl; [reflexivity |].
  now rewrite IH.
Qed.

Lemma enumerate_from_fst {A : Type} (i : Z) (l : list A) :
  map fst (enumerate_from i l) =
  map (fun n => i + Z.of_nat n) (seq 0 (List.length l)).
Proof.
  revert i. induction l as [| a rest IH]; intros i; simpl; [reflexivity |].
  rewrite IH, <- seq_shift, map_map. f_equal; [lia |].
  apply map_ext. intros n. lia.
Qed.

(** ** Dictionaries *)

Section DictFacts.

Context {K V : Type} (eqb : K -> K -> bool).
Hypothesis eqb_eq : forall a b, eqb a b = true <-> a = b.

Lemma eqb_same (k : K) : eqb k k = true.
Proof. now apply eqb_eq. Qed.

Lemma eqb_differ (a b : K) : a <> b -> eqb a b = false.
Proof.
  intros Hne. destruct (eqb a b) eqn:E; [| reflexivity].
  apply eqb_eq in E. contradiction.
Qed.

Lemma dict_lookup_set_same (k : K) (v : V) (d : list (K * V)) :
  dict_lookup eqb k (dict_set eqb k v d) = Some v.
Proof.
  induction d as [| [k' v'] rest IH]; simpl.
  - now rewrite eqb_same.
  - destruct (eqb k k') eqn:E; simpl; rewrite E; [reflexivity | exact IH].
Qed.

Lemma dict_lookup_set_other (k k' : K) (v : V) (d : list (K * V)) :
  k <> k' ->
  dict_lookup eqb k' (dict_set eqb k v d) = dict_lookup eqb k' d.
Proof.
  intros Hne. induction d as [| [k0 v0] rest IH]; simpl.
  - rewrite eqb_differ; [reflexivity | congruence].
  - destruct (eqb k k0) eqn:E; simpl.
    + apply eqb_eq in E. subst k0.
      rewrite eqb_differ; [reflexivity | congruence].
    + now rewrite IH.
Qed.

End DictFacts.

Lemma hkey_eqb_eq (a b : hkey) : hkey_eqb a b = true <-> a = b.
Proof.
  destruct a, b; simpl; split; intros H; try discriminate; try reflexivity.
  - apply Z.eqb_eq in H. now subst.
  - injection H as ->. apply Z.eqb_refl.
  - apply String.eqb_eq in H. now subst.
  - injection H as ->. apply String.eqb_refl.
Qed.

(** ** The event index *)

Lemma index_attribute_doc (ix : event_index) (e : raw_event) (a : raw_attribute) :
  index_attribute ix (raw_event_doc e) (raw_attribute_doc a) =
  Ok (append_value ix (raw_type e) (raw_key a) (attribute_value a)).
Proof.
  unfold index_attribute, append_value, attribute_value, raw_attribute_doc.
  destruct a as [k [v |]]; reflexivity.
Qed.

Lemma foldM_map {A B S : Type} (f : S -> B -> result S) (g : A -> B) (l : list A) (s : S) :
  foldM f s (map g l) = foldM (fun s a => f s (g a)) s l.
Proof.
  revert s. induction l as [| a rest IH]; intros s; simpl; [reflexivity |].
  destruct (f s (g a)); simpl; [apply IH | reflexivity].
Qed.

Lemma index_event_doc (ix : event_index) (e : raw_event) :
  index_event ix (raw_event_doc e) =
  Ok (fold_left
        (fun ix a => append_value ix (raw_type e) (raw_key a) (attribute_value a))
        (raw_attributes e) ix).
Proof.
  unfold index_event.
  change (py_getitem (raw_event_doc e) "attributes")
    with (Ok (A := value) (VList (map raw_attribute_doc (raw_attributes e)))).
  cbn [bind py_iter].
  rewrite foldM_map. apply foldM_pure.
  intros s a _. apply index_attribute_doc.
Qed.

Lemma parse_events_by_type_doc (es : list raw_event) :
  parse_events_by_type (raw_events_doc es) = Ok (events_by_type_spec es).
Proof.
  unfold parse_events_by_type, raw_events_doc, events_by_type_spec.
  cbn [bind py_iter].
  rewrite foldM_map. apply foldM_pure.
  intros s e _. apply index_event_doc.
Qed.

Lemma index_lookup_append (ix : event_index) (ty k : string) (v : value)
      (vals : string -> string -> list value) :
  (forall ty' k', index_lookup ix ty' k' = present (vals ty' k')) ->
  forall ty' k',
    index_lookup (append_value ix ty k v) ty' k' =
    present (vals ty' k' ++
             if ((ty =? ty') && (k =? k'))%string then [v] else []).
Proof.
  intros Hinv ty' k'. unfold index_lookup, append_value.
  destruct (String.eqb_spec ty ty') as [<- | Hty].
  - rewrite (dict_lookup_set_same _ hkey_eqb_eq). simpl andb.
    assert (Hold : forall k0,
      dict_lookup hkey_eqb (KStr k0)
        match dict_lookup hkey_eqb (KStr ty)
                (if dict_mem hkey_eqb (KStr ty) ix then ix
                 else dict_set hkey_eqb (KStr ty) [] ix) with
        | Some d => d
        | None => []
        end = present (vals ty k0)).
    { intros k0. rewrite <- Hinv. unfold index_lookup, dict_mem.
      destruct (dict_lookup hkey_eqb (KStr ty) ix) as [d |] eqn:L.
      - now rewrite L.
      - now rewrite (dict_lookup_set_same _ hkey_eqb_eq). }
    set (of_type := match dict_lookup hkey_eqb (KStr ty) _ with
                    | Some d => d | None => [] end) in *.
    assert (Hnew : forall k0,
      dict_lookup hkey_eqb (KStr k0)
        (if dict_mem hkey_eqb (KStr k) of_type then of_type
         else dict_set hkey_eqb (KStr k) [] of_type) =
      if (k =? k0)%string
      then Some (vals ty k0) else present (vals ty k0)).
    { intros k0. unfold dict_mem. specialize (Hold k) as Hk.
      destruct (String.eqb_spec k k0) as [<- | Hk0].
      - destruct (dict_lookup hkey_eqb (KStr k) of_type) as [l |] eqn:L.
        + rewrite L, Hk. destruct (vals ty k); [discriminate | reflexivity].
        + rewrite (dict_lookup_set_same _ hkey_eqb_eq).
          destruct (vals ty k); [reflexivity | discriminate].
      - destruct (dict_lookup hkey_eqb (KStr k) of_type) as [l |] eqn:L.
        + apply Hold.
        + rewrite (dict_lookup_set_other _ hkey_eqb_eq) by congruence.
          apply Hold. }
    destruct (String.eqb_spec k k') as [<- | Hk'].
    + rewrite (dict_lookup_set_same _ hkey_eqb_eq).
      specialize (Hnew k). rewrite String.eqb_refl in Hnew. rewrite Hnew.
      destruct (vals ty k); reflexivity.
    + rewrite (dict_lookup_set_other _ hkey_eqb_eq) by congruence.
      specialize (Hnew k'). rewrite (proj2 (String.eqb_neq k k') Hk') in Hnew.
      now rewrite Hnew, app_nil_r.
  - rewrite (dict_lookup_set_other _ hkey_eqb_eq) by congruence.
    simpl andb. rewrite app_nil_r, <- Hinv. unfold index_lookup, dict_mem.
    destruct (dict_lookup hkey_eqb (KStr ty) ix);
      [reflexivity | now rewrite (dict_lookup_set_other _ hkey_eqb_eq) by congruence].
Qed.

Lemma index_lookup_event (e : raw_event) (atts : list raw_attribute) :
  forall (ix : event_index) (vals : string -> string -> list value),
  (forall ty k, index_lookup ix ty k = present (vals ty k)) ->
  forall ty k,
    index_lookup
      (fold_left
         (fun ix a => append_value ix (raw_type e) (raw_key a) (attribute_value a))
         atts ix) ty k =
    present (vals ty k ++
             if (raw_type e =? ty)%string then
               flat_map
                 (fun a => if (raw_key a =? k)%string then [attribute_value a] else [])
                 atts
             else []).
Proof.
  induction atts as [| a rest IH]; intros ix vals Hinv ty k; simpl fold_left.
  - simpl flat_map. destruct (raw_type e =? ty)%string; now rewrite app_nil_r.
  - rewrite (IH _ _ (index_lookup_append ix _ _ _ vals Hinv)).
    f_equal. rewrite <- app_assoc. f_equal.
    destruct (raw_type e =? ty)%string; simpl; [| reflexivity].
    destruct (raw_key a =? k)%string; reflexivity.
Qed.

Lemma index_lookup_events (es : list raw_event) :
  forall (ix : event_index) (vals : string -> string -> list value),
  (forall ty k, index_lookup ix ty k = present (vals ty k)) ->
  forall ty k,
    index_lookup
      (fold_left
         (fun ix e =>
            fold_left
              (fun ix a => append_value ix (raw_type e) (raw_key a) (attribute_value a))
              (raw_attributes e) ix)
         es ix) ty k =
    present (vals ty k ++ values_of es ty k).
Proof.
  induction es as [| e rest IH]; intros ix vals Hinv ty k; simpl fold_left.
  - unfold values_of. simpl. now rewrite app_nil_r.
  - rewrite (IH _ _ (index_lookup_event e (raw_attributes e) ix vals Hinv)).
    f_equal. rewrite <- app_assoc. reflexivity.
Qed.

Lemma index_lookup_spec (es : list raw_event) (ty k : string) :
  index_lookup (events_by_type_spec es) ty k = present (values_of es ty k).
Proof.
  unfold events_by_type_spec.
  now rewrite (index_lookup_events es [] (fun _ _ => [])).
Qed.

(** C8: for every sequence of well-formed event records,
    [parse_events_by_type] returns the index that the rule of the
    specification builds (events in order, attributes in order, each value
    appended to [events_by_type[type][key]], containers created on first
    use); what is stored under a type and a key is exactly the values of the
    attributes with that type and key, in encounter order and with
    duplicates, and nothing is stored where there is none; [TxLog] keeps that
    index as [events_by_type]; and the two "amount" attributes of one
    "transfer" event give [{"transfer": {"amount": ["10", "20"]}}]. *)
Theorem events_by_type_indexing :
  (forall es : list raw_event,
      parse_events_by_type (raw_events_doc es) = Ok (events_by_type_spec es)) /\
  (forall (es : list raw_event) (ty k : string),
      index_lookup (events_by_type_spec es) ty k = present (values_of es ty k)) /\
  (forall (i : Z) (l : value) (es : list raw_event),
      TxLog_init i l (raw_events_doc es) =
      Ok (mkTxLog i l (raw_events_doc es) (events_by_type_spec es))) /\
  parse_events_by_type (raw_events_doc transfer_example) =
  Ok [(KStr "transfer", [(KStr "amount", [VStr "10"; VStr "20"])])].
Proof.
  split; [exact parse_events_by_type_doc |].
  split; [exact index_lookup_spec |].
  split; [| reflexivity].
  intros i l es. unfold TxLog_init.
  now rewrite parse_events_by_type_doc.
Qed.

(** ** Parsing logs *)

Lemma mapM_map {A B D : Type} (f : B -> result D) (g : A -> B) (l : list A) :
  mapM f (map g l) = mapM (fun a => f (g a)) l.
Proof.
  induction l as [| a rest IH]; simpl; [reflexivity |].
  now rewrite IH.
Qed.




(** ** Documents: encoding and decoding *)

Section Documents.

Context {C : Collaborators}.

Lemma Tx_from_data_of_to_data (x : Tx) (d : value) :
  Tx_to_data x = Ok d -> Tx_from_data d = Raise (KeyError "value").
Proof.
  unfold Tx_to_data. intros H.
  apply bind_Ok in H as (b & _ & H). apply bind_Ok in H as (a & _ & H).
  injection H as <-. reflexivity.
Qed.

Lemma TxBody_from_data_of_to_data (x : TxBody) (d : value) :
  TxBody_to_data x = Ok d -> TxBody_from_data d = Raise (KeyError "value").
Proof.
  unfold TxBody_to_data. intros H.
  apply bind_Ok in H as (ms & _ & H). injection H as <-. reflexivity.
Qed.

Lemma AuthInfo_from_data_of_to_data (x : AuthInfo) (d : value) :
  AuthInfo_to_data x = Ok d -> AuthInfo_from_data d = Raise (KeyError "value").
Proof.
  unfold AuthInfo_to_data. intros H.
  apply bind_Ok in H as (sis & _ & H). apply bind_Ok in H as (f & _ & H).
  injection H as <-. reflexivity.
Qed.

Lemma SignerInfo_from_data_of_to_data (x : SignerInfo) (d : value) :
  SignerInfo_to_data x = Ok d -> SignerInfo_from_data d = Raise (KeyError "value").
Proof.
  unfold SignerInfo_to_data. intros H.
  apply bind_Ok in H as (pk & _ & H). apply bind_Ok in H as (mi & _ & H).
  injection H as <-. reflexivity.
Qed.

Lemma ModeInfo_from_data_of_to_data (x : ModeInfo) (d : value) :
  ModeInfo_to_data x = Ok d -> ModeInfo_from_data d = Raise (KeyError "value").
Proof.
  unfold ModeInfo_to_data. intros H.
  apply bind_Ok in H as (s & _ & H). apply bind_Ok in H as (m & _ & H).
  injection H as <-. reflexivity.
Qed.

Lemma TxInfo_from_data_of_to_data (x : TxInfo) (d : value) :
  TxInfo_to_data x = Ok d -> exists e, TxInfo_from_data d = Raise e.
Proof.
  unfold TxInfo_to_data. intros H.
  apply bind_Ok in H as (ls & _ & H). apply bind_Ok in H as (t & Ht & H).
  apply Tx_from_data_of_to_data in Ht.
  destruct (opt_list_bool (logs x)), (py_bool (code x)), (py_bool (codespace x));
    injection H as <-; unfold TxInfo_from_data;
    cbn [py_getitem py_get dict_lookup dict_remove String.eqb Ascii.eqb Bool.eqb bind];
    match goal with
    | |- context [parse_tx_logs ?v] => destruct (parse_tx_logs v)
    end;
    cbn [bind]; rewrite ?Ht; cbn [bind]; eauto.
Qed.

Lemma roundtrip_raises {A : Type} (enc : A -> result value) (dec : value -> result A) :
  (forall x d, enc x = Ok d -> exists e, dec d = Raise e) ->
  forall x, exists e, (d <- enc x ;; dec d) = Raise e.
Proof.
  intros H x. destruct (enc x) as [d | e] eqn:E; simpl; eauto.
Qed.

End Documents.

(** ** Receipts *)

Section Receipts.

Context {C : Collaborators}.

Lemma TxInfo_to_data_entries (x : TxInfo) (t : value) (ds : list value) :
  Tx_to_data (tx x) = Ok t ->
  mapM TxLog_to_data (logs_or_empty x) = Ok ds ->
  TxInfo_to_data x = Ok (VDict (TxInfo_entries x t ds)).
Proof.
  unfold TxInfo_to_data, TxInfo_entries, logs_or_empty. intros Ht Hl.
  rewrite Ht.
  destruct (opt_list_bool (logs x)), (py_bool (code x)), (py_bool (codespace x));
    rewrite ?Hl; reflexivity.
Qed.

Lemma TxInfo_entries_logs (x : TxInfo) (t : value) (ds : list value) :
  dict_lookup String.eqb "logs" (TxInfo_entries x t ds) =
  if opt_list_bool (logs x) then Some (VList ds) else None.
Proof.
  unfold TxInfo_entries.
  destruct (opt_list_bool (logs x)), (py_bool (code x)), (py_bool (codespace x));
    reflexivity.
Qed.

Lemma TxInfo_entries_code (x : TxInfo) (t : value) (ds : list value) :
  dict_lookup String.eqb "code" (TxInfo_entries x t ds) =
  if py_bool (code x) then Some (code x) else None.
Proof.
  unfold TxInfo_entries.
  destruct (opt_list_bool (logs x)), (py_bool (code x)), (py_bool (codespace x));
    reflexivity.
Qed.

Lemma TxInfo_entries_codespace (x : TxInfo) (t : value) (ds : list value) :
  dict_lookup String.eqb "codespace" (TxInfo_entries x t ds) =
  if py_bool (codespace x) then Some (codespace x) else None.
Proof.
  unfold TxInfo_entries.
  destruct (opt_list_bool (logs x)), (py_bool (code x)), (py_bool (codespace x));
    reflexivity.
Qed.

Lemma TxInfo_entries_quantities (x : TxInfo) (t : value) (ds : list value) :
  dict_lookup String.eqb "height" (TxInfo_entries x t ds) = Some (VStr (str (height x))) /\
  dict_lookup String.eqb "gas_wanted" (TxInfo_entries x t ds) = Some (VStr (str (gas_wanted x))) /\
  dict_lookup String.eqb "gas_used" (TxInfo_entries x t ds) = Some (VStr (str (gas_used x))).
Proof.
  unfold TxInfo_entries.
  destruct (opt_list_bool (logs x)), (py_bool (code x)), (py_bool (codespace x));
    repeat split; reflexivity.
Qed.

(** C6, as amended: when the transaction and the logs encode, [to_data]
    returns a document that has no "logs" key when logs is absent, no "code"
    key when code is unset, no "codespace" key when codespace is unset, and
    that keeps "code" for a non-zero code and "codespace" for a non-empty
    codespace. *)
Theorem TxInfo_to_data_optional_keys (x : TxInfo) (t : value) (ds : list value) :
  Tx_to_data (tx x) = Ok t ->
  mapM TxLog_to_data (logs_or_empty x) = Ok ds ->
  exists d : list (string * value),
    TxInfo_to_data x = Ok (VDict d) /\
    (logs x = None -> dict_lookup String.eqb "logs" d = None) /\
    (code x = VNone -> dict_lookup String.eqb "code" d = None) /\
    (codespace x = VNone -> dict_lookup String.eqb "codespace" d = None) /\
    (forall c, code x = VInt c -> c <> 0 ->
               dict_lookup String.eqb "code" d = Some (VInt c)) /\
    (forall s, codespace x = VStr s -> s <> ""%string ->
               dict_lookup String.eqb "codespace" d = Some (VStr s)).
Proof.
  intros Ht Hl. exists (TxInfo_entries x t ds).
  split; [now apply TxInfo_to_data_entries |].
  rewrite TxInfo_entries_logs, TxInfo_entries_code, TxInfo_entries_codespace.
  repeat split.
  - now intros ->.
  - now intros ->.
  - now intros ->.
  - intros c -> Hc. simpl. now rewrite (proj2 (Z.eqb_neq c 0) Hc).
  - intros s -> Hs. simpl. now rewrite (proj2 (String.eqb_neq s "") Hs).
Qed.

(** C10: a code that is the integer 0 is left out of the document, which
    is then the document of the same receipt with no code at all: the key is
    dropped on the truth value of the field. *)
Theorem TxInfo_to_data_zero_code (x : TxInfo) (t : value) (ds : list value) :
  code x = VInt 0 ->
  Tx_to_data (tx x) = Ok t ->
  mapM TxLog_to_data (logs_or_empty x) = Ok ds ->
  exists d : list (string * value),
    TxInfo_to_data x = Ok (VDict d) /\
    dict_lookup String.eqb "code" d = None /\
    TxInfo_to_data (with_code x VNone) = Ok (VDict d).
Proof.
  intros Hc Ht Hl. exists (TxInfo_entries x t ds).
  split; [now apply TxInfo_to_data_entries |].
  split.
  - now rewrite TxInfo_entries_code, Hc.
  - rewrite (TxInfo_to_data_entries (with_code x VNone) t ds Ht Hl).
    unfold TxInfo_entries. simpl. now rewrite Hc.
Qed.

(** The omission test is the truth value: any code that tests false is
    dropped, any code that tests true is kept. *)
Lemma TxInfo_to_data_code_truth (x : TxInfo) (t : value) (ds : list value) :
  Tx_to_data (tx x) = Ok t ->
  mapM TxLog_to_data (logs_or_empty x) = Ok ds ->
  exists d : list (string * value),
    TxInfo_to_data x = Ok (VDict d) /\
    dict_lookup String.eqb "code" d = if py_bool (code x) then Some (code x) else None.
Proof.
  intros Ht Hl. exists (TxInfo_entries x t ds).
  split; [now apply TxInfo_to_data_entries | apply TxInfo_entries_code].
Qed.

End Receipts.

(** ** Appending empty signatures *)

Lemma empty_signer_info_multisig (signer : SignerData) :
  is_multisig signer = true -> empty_signer_info signer = Raise NotImplementedError.
Proof.
  unfold is_multisig, empty_signer_info.
  destruct (signer_public_key signer) as [[k | ks] |]; intros H;
    [discriminate | reflexivity | discriminate].
Qed.

Lemma empty_signer_info_single (signer : SignerData) :
  is_multisig signer = false ->
  empty_signer_info signer =
  Ok (mkSignerInfo
        (match signer_public_key signer with Some pk => pk | None => SimplePublicKey "" end)
        (signer_sequence signer) single_direct).
Proof.
  unfold is_multisig, empty_signer_info.
  destruct (signer_public_key signer) as [[k | ks] |]; intros H;
    [reflexivity | discriminate | reflexivity].
Qed.

Lemma built_signer_infos_single (signers : list SignerData) :
  forallb (fun s => negb (is_multisig s)) signers = true ->
  built_signer_infos signers =
  (map (fun s => mkSignerInfo
                   (match signer_public_key s with Some pk => pk | None => SimplePublicKey "" end)
                   (signer_sequence s) single_direct) signers,
   Ok tt).
Proof.
  induction signers as [| s rest IH]; simpl; [reflexivity |].
  intros H. apply andb_true_iff in H as [Hs Hrest].
  apply negb_true_iff in Hs.
  rewrite (empty_signer_info_single s Hs), (IH Hrest). reflexivity.
Qed.

Section Signatures.

Context {C : Collaborators}.

Lemma append_empty_signatures_built (signers : list SignerData) :
  forall (self : Tx) (sigs : list value),
    signatures self = VList sigs ->
    append_empty_signatures self signers =
    (extended self sigs (fst (built_signer_infos signers)),
     snd (built_signer_infos signers)).
Proof.
  induction signers as [| s rest IH]; intros self sigs Hs.
  - simpl. unfold extended. simpl. rewrite !app_nil_r, <- Hs.
    now destruct self as [b [sis f] sg].
  - simpl. destruct (empty_signer_info s) as [si | e].
    + cbn [with_signer_info signatures]. rewrite Hs. cbn [py_append].
      rewrite (IH (with_signatures (with_signer_info self si) (VList (sigs ++ [VStr " "])))
                  (sigs ++ [VStr " "]) eq_refl).
      destruct (built_signer_infos rest) as [sis r]. cbn [fst snd].
      unfold extended, with_signatures, with_signer_info.
      cbn [body auth_info signer_infos fee List.length repeat].
      now rewrite <- !app_assoc.
    + simpl. unfold extended. simpl. rewrite !app_nil_r, <- Hs.
      now destruct self as [b [sis f] sg].
Qed.

(** X10: what holds of [append_empty_signatures] when no signer carries a
    multisig key: one signer info and one placeholder per signer, in input
    order, after the entries that were there. *)
Lemma append_empty_signatures_single (self : Tx) (sigs : list value) (signers : list SignerData) :
  signatures self = VList sigs ->
  forallb (fun s => negb (is_multisig s)) signers = true ->
  append_empty_signatures self signers =
  (mkTx (body self)
        (mkAuthInfo
           (signer_infos (auth_info self) ++
            map (fun s => mkSignerInfo
                            (match signer_public_key s with
                             | Some pk => pk
                             | None => SimplePublicKey ""
                             end)
                            (signer_sequence s) single_direct) signers)
           (fee (auth_info self)))
        (VList (sigs ++ repeat (VStr " ") (List.length signers))),
   Ok tt).
Proof.
  intros Hs Hsingle.
  rewrite (append_empty_signatures_built signers self sigs Hs).
  rewrite (built_signer_infos_single signers Hsingle).
  unfold extended. cbn [fst snd]. now rewrite length_map.
Qed.

End Signatures.

(** ** Decimal strings *)

Lemma str_is_decimal (z : Z) :
  option_map Z.of_int (NilZero.int_of_string (str z)) = Some z.
Proof.
  unfold str. rewrite NilZero.isi.
  - simpl. now rewrite DecimalZ.of_to.
  - destruct z; simpl; try discriminate.
    intros H. injection H as H.
    now apply (DecimalPos.Unsigned.to_uint_nonnil p).
  - destruct z; simpl; try discriminate.
    intros H. injection H as H.
    now apply (DecimalPos.Unsigned.to_uint_nonnil p).
Qed.

(** ** Round trips through documents *)

(** C1: the round trip [from_data(to_data(x))] does not return [x]: on the
    transaction with no message, empty memo, timeout height zero and no
    signer it raises [KeyError "value"], and for every [Tx], [TxBody],
    [AuthInfo], [SignerInfo], [ModeInfo] and [TxInfo], whatever the
    collaborators do, it raises. *)
Theorem document_roundtrip_raises :
  @Tx_roundtrip sample empty_tx = Raise (KeyError "value") /\
  forall C : Collaborators,
    (forall x : Tx, exists e, Tx_roundtrip x = Raise e) /\
    (forall x : TxBody, exists e, TxBody_roundtrip x = Raise e) /\
    (forall x : AuthInfo, exists e, AuthInfo_roundtrip x = Raise e) /\
    (forall x : SignerInfo, exists e, SignerInfo_roundtrip x = Raise e) /\
    (forall x : ModeInfo, exists e, ModeInfo_roundtrip x = Raise e) /\
    (forall x : TxInfo, exists e, TxInfo_roundtrip x = Raise e).
Proof.
  split; [reflexivity |]. intros C.
  repeat split; apply roundtrip_raises; intros x d H.
  - rewrite (Tx_from_data_of_to_data x d H). eauto.
  - rewrite (TxBody_from_data_of_to_data x d H). eauto.
  - rewrite (AuthInfo_from_data_of_to_data x d H). eauto.
  - rewrite (SignerInfo_from_data_of_to_data x d H). eauto.
  - rewrite (ModeInfo_from_data_of_to_data x d H). eauto.
  - exact (TxInfo_from_data_of_to_data x d H).
Qed.

(** ** Compact bit arrays *)

(** C2: [CompactBitArray.from_bits] builds no bit array: for 9, 8, 16 and
    every other number of bits it raises [NotImplementedError]. *)
Theorem from_bits_not_implemented :
  CompactBitArray_from_bits 9 = Raise NotImplementedError /\
  CompactBitArray_from_bits 8 = Raise NotImplementedError /\
  CompactBitArray_from_bits 16 = Raise NotImplementedError /\
  forall n : Z, CompactBitArray_from_bits n = Raise NotImplementedError.
Proof. repeat split. Qed.

(** ** Signer infos *)

(** C3: for a signer with a multisig key of two keys
    [append_empty_signatures] raises [NotImplementedError] and appends
    nothing, as the construction does for every multisig key; a signer with
    a simple key or with no key gets the single mode DIRECT, the latter over
    the simple key of the empty string. *)
Theorem multisig_signer_raises :
  append_empty_signatures empty_tx [mkSignerData 7 (Some two_key_multisig)] =
  (empty_tx, Raise NotImplementedError) /\
  (forall (n : Z) (ks : list PublicKey),
      empty_signer_info (mkSignerData n (Some (LegacyAminoPubKey ks))) =
      Raise NotImplementedError) /\
  (forall (n : Z) (k : string),
      empty_signer_info (mkSignerData n (Some (SimplePublicKey k))) =
      Ok (mkSignerInfo (SimplePublicKey k) n single_direct)) /\
  (forall n : Z,
      empty_signer_info (mkSignerData n None) =
      Ok (mkSignerInfo (SimplePublicKey "") n single_direct)).
Proof. repeat split. Qed.

(** C5: with a keyless signer followed by a multisig signer the call raises
    [NotImplementedError] after one append to each sequence, so both grow by
    one for two signers; in general the call appends the signer infos built
    before the first failure and as many placeholders, and ends with that
    failure. *)
Theorem append_stops_at_multisig :
  append_empty_signatures empty_tx
    [mkSignerData 0 None; mkSignerData 1 (Some two_key_multisig)] =
  (@mkTx sample (body empty_tx)
         (@mkAuthInfo sample [mkSignerInfo (SimplePublicKey "") 0 single_direct] sample_fee)
         (VList [VStr " "]),
   Raise NotImplementedError) /\
  forall (C : Collaborators) (self : Tx) (sigs : list value) (signers : list SignerData),
    signatures self = VList sigs ->
    append_empty_signatures self signers =
    (extended self sigs (fst (built_signer_infos signers)),
     snd (built_signer_infos signers)).
Proof.
  split; [reflexivity |].
  intros C self sigs signers Hs. now apply append_empty_signatures_built.
Qed.

(** ** Integer quantities *)

(** C7: the document of a signer info carries the sequence as an [int], not
    as a decimal string: 5 for the sequence 5, and the sequence itself for
    every signer info that encodes. *)
Theorem signer_sequence_is_int :
  @SignerInfo_to_data sample direct_signer_info =
  Ok (VDict [("public_key", VDict [("key", VStr "A")]);
             ("sequence", VInt 5);
             ("mode_info", VDict [("single", VNone); ("multi", VNone)])]) /\
  forall (C : Collaborators) (x : SignerInfo) (d : value),
    SignerInfo_to_data x = Ok d ->
    py_getitem d "sequence" = Ok (VInt (sequence x)).
Proof.
  split; [reflexivity |].
  intros C x d H. unfold SignerInfo_to_data in H.
  apply bind_Ok in H as (pk & _ & H). apply bind_Ok in H as (mi & _ & H).
  injection H as <-. reflexivity.
Qed.

(** The quantities of a receipt are decimal strings. *)
Lemma receipt_quantities_are_strings {C : Collaborators} (x : TxInfo) (t : value) (ds : list value) :
  Tx_to_data (tx x) = Ok t ->
  mapM TxLog_to_data (logs_or_empty x) = Ok ds ->
  exists d : list (string * value),
    TxInfo_to_data x = Ok (VDict d) /\
    dict_lookup String.eqb "height" d = Some (VStr (str (height x))) /\
    dict_lookup String.eqb "gas_wanted" d = Some (VStr (str (gas_wanted x))) /\
    dict_lookup String.eqb "gas_used" d = Some (VStr (str (gas_used x))).
Proof.
  intros Ht Hl. exists (TxInfo_entries x t ds).
  split; [now apply TxInfo_to_data_entries | apply TxInfo_entries_quantities].
Qed.

(** ** Mode infos *)

(** C9, against the claim: a mode info with both variants populated is
    serialized without any error, as its single variant alone, and one with
    neither variant populated fails with [AttributeError]. *)
Lemma both_modes_serialize :
  @ModeInfo_to_proto sample both_modes =
  Ok (mkModeInfo_pb (Some (mkModeInfoSingle_pb 1)) None) /\
  @ModeInfo_to_proto sample (mkModeInfo None None) = Raise AttributeError.
Proof. split; reflexivity. Qed.

(** C9, as amended: serializing a mode info with both variants populated
    does not fail, it returns the encoding of the single variant alone;
    serializing one with neither variant populated fails with
    [AttributeError]; a mode info is well-formed exactly when one of the two
    variants is populated and the other is not, and the mode infos that
    [append_empty_signatures] builds are well-formed and serialize. *)
Theorem ModeInfo_to_proto_cases :
  forall C : Collaborators,
    (forall (s : ModeInfoSingle) (m : ModeInfoMulti),
        ModeInfo_to_proto (mkModeInfo (Some s) (Some m)) =
        Ok (mkModeInfo_pb (Some (ModeInfoSingle_to_proto s)) None)) /\
    ModeInfo_to_proto (mkModeInfo None None) = Raise AttributeError /\
    (forall m : ModeInfo,
        well_formed_ModeInfo m = true <->
        (exists s, m = mkModeInfo (Some s) None) \/
        (exists mm, m = mkModeInfo None (Some mm))) /\
    (forall (signer : SignerData) (si : SignerInfo),
        empty_signer_info signer = Ok si ->
        well_formed_ModeInfo (mode_info si) = true /\
        ModeInfo_to_proto (mode_info si) =
        Ok (mkModeInfo_pb (Some (mkModeInfoSingle_pb 1)) None)).
Proof.
  intros C. split; [reflexivity |]. split; [reflexivity |]. split.
  - intros [[s |] [mm |]]; unfold well_formed_ModeInfo; simpl; split.
    + discriminate.
    + intros [(s' & H) | (mm' & H)]; discriminate.
    + intros _. left. now exists s.
    + reflexivity.
    + intros _. right. now exists mm.
    + reflexivity.
    + discriminate.
    + intros [(s' & H) | (mm' & H)]; discriminate.
  - intros signer si. unfold empty_signer_info.
    destruct (signer_public_key signer) as [[k | ks] |]; intros H;
      try discriminate; injection H as <-; split; reflexivity.
Qed.

(** ** Optional keys of a receipt *)

(** C6, against the claim: a receipt whose code is set, to 0, and whose
    codespace is set has no "code" key in its document. *)
Lemma zero_code_is_dropped :
  code (receipt (VInt 0) (VStr "sdk")) = VInt 0 /\
  exists d : list (string * value),
    TxInfo_to_data (receipt (VInt 0) (VStr "sdk")) = Ok (VDict d) /\
    dict_lookup String.eqb "code" d = None /\
    dict_lookup String.eqb "codespace" d = Some (VStr "sdk").
Proof.
  split; [reflexivity |]. eexists. split; [reflexivity |]. split; reflexivity.
Qed.

(** The amended C6 at the receipt of a failed transaction, code 5 in
    codespace "sdk", with no logs. *)
Lemma TxInfo_to_data_optional_keys_witness :
  exists d : list (string * value),
    TxInfo_to_data (receipt (VInt 5) (VStr "sdk")) = Ok (VDict d) /\
    dict_lookup String.eqb "logs" d = None /\
    dict_lookup String.eqb "code" d = Some (VInt 5) /\
    dict_lookup String.eqb "codespace" d = Some (VStr "sdk").
Proof.
  destruct (@TxInfo_to_data_optional_keys sample (receipt (VInt 5) (VStr "sdk"))
              (VDict [("body", VDict [("messages", VList []); ("memo", VStr "");
                                      ("timeout_height", VInt 0)]);
                      ("auth_info", VDict [("signer_infos", VList []);
                                           ("fee", sample_fee)]);
                      ("signatures", VList [])])
              [] eq_refl eq_refl)
    as (d & Hd & Hlogs & _ & _ & Hcode & Hcs).
  exists d. split; [exact Hd |]. split; [now apply Hlogs |].
  split; [apply Hcode; [reflexivity | discriminate] | apply Hcs; [reflexivity | discriminate]].
Defined.

(** C10 at the receipt with code 0 in codespace "sdk". *)
Lemma TxInfo_to_data_zero_code_witness :
  exists d : list (string * value),
    TxInfo_to_data (receipt (VInt 0) (VStr "sdk")) = Ok (VDict d) /\
    dict_lookup String.eqb "code" d = None /\
    TxInfo_to_data (receipt VNone (VStr "sdk")) = Ok (VDict d).
Proof.
  exact (@TxInfo_to_data_zero_code sample (receipt (VInt 0) (VStr "sdk"))
           (VDict [("body", VDict [("messages", VList []); ("memo", VStr "");
                                   ("timeout_height", VInt 0)]);
                   ("auth_info", VDict [("signer_infos", VList []);
                                        ("fee", sample_fee)]);
                   ("signatures", VList [])])
           [] eq_refl eq_refl eq_refl).
Defined.

(** * Further properties *)

(** ** Loops, once more *)

Lemma foldM_invariant {A S : Type} (P : S -> Prop) (f : S -> A -> result S) (l : list A) :
  (forall s a s', P s -> f s a = Ok s' -> P s') ->
  forall s s', P s -> foldM f s l = Ok s' -> P s'.
Proof.
  intros Hstep. induction l as [| a rest IH]; intros s s' Hs H; simpl in H.
  - injection H as <-. exact Hs.
  - apply bind_Ok in H as (s1 & H1 & H). eapply IH; [| exact H].
    eapply Hstep; eassumption.
Qed.

Lemma foldM_app {A S : Type} (f : S -> A -> result S) (l1 l2 : list A) (s : S) :
  foldM f s (l1 ++ l2) = (s1 <- foldM f s l1 ;; foldM f s1 l2).
Proof.
  revert s. induction l1 as [| a rest IH]; intros s; simpl; [reflexivity |].
  destruct (f s a); simpl; [apply IH | reflexivity].
Qed.

Lemma mapM_Ok {A B : Type} (f : A -> result B) (l : list A) (bs : list B) :
  mapM f l = Ok bs -> Forall2 (fun a b => f a = Ok b) l bs.
Proof.
  revert bs. induction l as [| a rest IH]; intros bs H; simpl in H.
  - injection H as <-. constructor.
  - apply bind_Ok in H as (b & Hb & H). apply bind_Ok in H as (bs' & Hbs & H).
    injection H as <-. constructor; [exact Hb | now apply IH].
Qed.

Lemma mapM_app {A B : Type} (f : A -> result B) (l1 l2 : list A) :
  mapM f (l1 ++ l2) =
  (b1 <- mapM f l1 ;; b2 <- mapM f l2 ;; Ok (b1 ++ b2)).
Proof.
  induction l1 as [| a rest IH]; simpl.
  - destruct (mapM f l2); reflexivity.
  - destruct (f a); simpl; [| reflexivity].
    rewrite IH. destruct (mapM f rest); simpl; [| reflexivity].
    destruct (mapM f l2); reflexivity.
Qed.

(** ** Dictionaries, once more *)

Section DictShape.

Context {K V : Type} (eqb : K -> K -> bool).
Hypothesis eqb_eq : forall a b, eqb a b = true <-> a = b.

Lemma dict_lookup_None (k : K) (d : list (K * V)) :
  dict_lookup eqb k d = None -> ~ In k (map fst d).
Proof.
  induction d as [| [k' v'] rest IH]; simpl; intros H.
  - tauto.
  - destruct (eqb k k') eqn:E; [discriminate |].
    intros [Heq | Hin]; [| now apply IH].
    subst k'. now rewrite (eqb_same eqb eqb_eq) in E.
Qed.

Lemma dict_lookup_Some (k : K) (v : V) (d : list (K * V)) :
  dict_lookup eqb k d = Some v -> In (k, v) d.
Proof.
  induction d as [| [k' v'] rest IH]; simpl; intros H.
  - discriminate.
  - destruct (eqb k k') eqn:E.
    + apply eqb_eq in E. subst k'. injection H as <-. now left.
    + right. now apply IH.
Qed.

Lemma dict_set_keys (k : K) (v : V) (d : list (K * V)) :
  map fst (dict_set eqb k v d) =
  if dict_mem eqb k d then map fst d else map fst d ++ [k].
Proof.
  unfold dict_mem. induction d as [| [k' v'] rest IH]; simpl.
  - reflexivity.
  - destruct (eqb k k') eqn:E; simpl; [reflexivity |].
    rewrite IH. now destruct (dict_lookup eqb k rest).
Qed.

Lemma dict_set_NoDup (k : K) (v : V) (d : list (K * V)) :
  NoDup (map fst d) -> NoDup (map fst (dict_set eqb k v d)).
Proof.
  intros Hd. rewrite dict_set_keys. unfold dict_mem.
  destruct (dict_lookup eqb k d) eqn:L; [exact Hd |].
  apply dict_lookup_None in L.
  apply NoDup_rev in Hd. rewrite <- (rev_involutive (map fst d ++ [k])).
  apply NoDup_rev. rewrite rev_app_distr. simpl.
  constructor; [now rewrite <- in_rev | exact Hd].
Qed.

Lemma dict_set_Forall (P : K * V -> Prop) (k : K) (v : V) (d : list (K * V)) :
  (forall k', eqb k k' = true -> P (k', v)) ->
  Forall P d -> Forall P (dict_set eqb k v d).
Proof.
  intros Hv. induction 1 as [| [k' v'] rest Hx Hrest IH]; simpl.
  - constructor; [apply Hv, (eqb_same eqb eqb_eq) | constructor].
  - destruct (eqb k k') eqn:E; constructor; auto.
Qed.

Lemma dict_set_twice (k : K) (v v' : V) (d : list (K * V)) :
  dict_set eqb k v (dict_set eqb k v' d) = dict_set eqb k v d.
Proof.
  induction d as [| [k0 v0] rest IH]; simpl.
  - now rewrite (eqb_same eqb eqb_eq).
  - destruct (eqb k k0) eqn:E; simpl; rewrite E; [reflexivity | now rewrite IH].
Qed.

Lemma dict_set_not_empty (k : K) (v : V) (d : list (K * V)) :
  dict_set eqb k v d <> [].
Proof.
  destruct d as [| [k' v'] rest]; simpl; [discriminate |].
  destruct (eqb k k'); discriminate.
Qed.

End DictShape.

(** ** The shape of the index, for any input *)

Lemma values_by_key_ok_lookup (ix : event_index) (ty : hkey) :
  index_ok ix ->
  values_by_key_ok
    match dict_lookup hkey_eqb ty ix with Some d => d | None => [] end.
Proof.
  intros [_ Hall]. destruct (dict_lookup hkey_eqb ty ix) as [d |] eqn:L.
  - apply (dict_lookup_Some _ hkey_eqb_eq) in L.
    rewrite Forall_forall in Hall. exact (proj2 (Hall _ L)).
  - split; constructor.
Qed.

Lemma values_by_key_ok_set (d : list (hkey * list value)) (k : hkey) (l : list value) :
  values_by_key_ok d -> l <> [] -> values_by_key_ok (dict_set hkey_eqb k l d).
Proof.
  intros [Hnd Hall] Hl. split.
  - now apply (dict_set_NoDup _ hkey_eqb_eq).
  - apply (dict_set_Forall _ hkey_eqb_eq); [| exact Hall]. now intros k' _.
Qed.

Lemma index_ok_set (ix : event_index) (ty : hkey) (d : list (hkey * list value)) :
  index_ok ix -> d <> [] -> values_by_key_ok d -> index_ok (dict_set hkey_eqb ty d ix).
Proof.
  intros [Hnd Hall] Hd Hok. split.
  - now apply (dict_set_NoDup _ hkey_eqb_eq).
  - apply (dict_set_Forall _ hkey_eqb_eq); [| exact Hall]. now intros ty' _.
Qed.

Lemma index_attribute_ok (ix ix' : event_index) (ev att : value) :
  index_ok ix -> index_attribute ix ev att = Ok ix' -> index_ok ix'.
Proof.
  intros Hix H. unfold index_attribute in H.
  apply bind_Ok in H as (tyv & _ & H). apply bind_Ok in H as (ty & _ & H).
  apply bind_Ok in H as (kv & _ & H). apply bind_Ok in H as (k & _ & H).
  apply bind_Ok in H as (v & _ & H). injection H as <-. cbv zeta.
  pose proof (values_by_key_ok_lookup ix ty Hix) as Hold.
  unfold dict_mem.
  destruct (dict_lookup hkey_eqb ty ix) as [d |] eqn:L.
  - rewrite L. apply index_ok_set; [exact Hix | apply dict_set_not_empty |].
    destruct (dict_lookup hkey_eqb k d) as [l |] eqn:Lk.
    + rewrite Lk. apply values_by_key_ok_set; [exact Hold |].
      intros Habs. apply app_eq_nil in Habs as [_ Habs]. discriminate.
    + rewrite (dict_set_twice _ hkey_eqb_eq).
      apply values_by_key_ok_set; [exact Hold |].
      intros Habs. apply app_eq_nil in Habs as [_ Habs]. discriminate.
  - rewrite (dict_lookup_set_same _ hkey_eqb_eq).
    rewrite (dict_set_twice _ hkey_eqb_eq).
    apply index_ok_set; [exact Hix | apply dict_set_not_empty |].
    cbn [dict_lookup]. rewrite (dict_set_twice _ hkey_eqb_eq).
    apply values_by_key_ok_set; [split; constructor |].
    intros Habs. apply app_eq_nil in Habs as [_ Habs]. discriminate.
Qed.

Lemma index_event_ok (ix ix' : event_index) (ev : value) :
  index_ok ix -> index_event ix ev = Ok ix' -> index_ok ix'.
Proof.
  intros Hix H. unfold index_event in H.
  apply bind_Ok in H as (a & _ & H). apply bind_Ok in H as (atts & _ & H).
  revert H. apply foldM_invariant; [| exact Hix].
  intros s att s' Hs Hstep. exact (index_attribute_ok s s' ev att Hs Hstep).
Qed.

Lemma parse_events_by_type_index_ok (event_data : value) (ix : event_index) :
  parse_events_by_type event_data = Ok ix -> index_ok ix.
Proof.
  unfold parse_events_by_type. intros H.
  apply bind_Ok in H as (evs & _ & H).
  revert H. apply foldM_invariant.
  - intros s ev s'. apply index_event_ok.
  - split; constructor.
Qed.

(** X1: whatever the input, an index that [parse_events_by_type] returns is
    a well-formed dict of dicts of lists: no event type and, under a type, no
    attribute key occurs twice, no type holds an empty dict and no key an
    empty list. *)
Theorem parse_events_by_type_shape (event_data : value) (ix : event_index) :
  parse_events_by_type event_data = Ok ix -> index_ok ix.
Proof. apply parse_events_by_type_index_ok. Qed.

(** X1 on two transfers and a message event. *)
Lemma parse_events_by_type_shape_witness :
  index_ok
    [(KStr "transfer", [(KStr "amount", [VStr "10"; VStr "20"]);
                        (KStr "sender", [VStr "terra1"])]);
     (KStr "message", [(KStr "action", [VStr "send"])])].
Proof.
  apply (parse_events_by_type_shape
           (raw_events_doc
              [mkRawEvent "transfer"
                 [mkRawAttribute "amount" (Some (VStr "10"));
                  mkRawAttribute "sender" (Some (VStr "terra1"))];
               mkRawEvent "message" [mkRawAttribute "action" (Some (VStr "send"))];
               mkRawEvent "transfer" [mkRawAttribute "amount" (Some (VStr "20"))]])).
  reflexivity.
Defined.

(** ** A malformed event ends the indexing *)

Lemma index_attribute_outcome (ix ix' : event_index) (ev att : value) :
  same_outcome (index_attribute ix ev att) (index_attribute ix' ev att).
Proof.
  unfold index_attribute.
  destruct (py_getitem ev "type") as [tyv |]; cbn [bind]; [| reflexivity].
  destruct (py_hash tyv) as [ty |]; cbn [bind]; [| reflexivity].
  destruct (py_getitem att "key") as [kv |]; cbn [bind]; [| reflexivity].
  destruct (py_hash kv) as [k |]; cbn [bind]; [| reflexivity].
  destruct (py_get att "value") as [v |]; cbn [bind]; [exact I | reflexivity].
Qed.

Lemma foldM_outcome {A S : Type} (f : S -> A -> result S) (l : list A) :
  (forall s s' a, same_outcome (f s a) (f s' a)) ->
  forall s s', same_outcome (foldM f s l) (foldM f s' l).
Proof.
  intros Hf. induction l as [| a rest IH]; intros s s'; simpl; [exact I |].
  specialize (Hf s s' a).
  destruct (f s a) as [s1 |], (f s' a) as [s1' |]; simpl in *;
    [apply IH | contradiction | contradiction | exact Hf].
Qed.

Lemma index_event_outcome (ix ix' : event_index) (ev : value) :
  same_outcome (index_event ix ev) (index_event ix' ev).
Proof.
  unfold index_event.
  destruct (py_getitem ev "attributes") as [a |]; cbn [bind]; [| reflexivity].
  destruct (py_iter a) as [atts |]; cbn [bind]; [| reflexivity].
  apply foldM_outcome. intros s s' att. apply index_attribute_outcome.
Qed.

(** X2: indexing is fail-fast.  After any well-formed events, an element
    that cannot be indexed on its own ends the call with its own exception,
    whatever follows it: no index is returned for the events before it. *)
Theorem parse_events_by_type_fail_fast
        (es : list raw_event) (ev : value) (rest : list value) (e : exn) :
  index_event [] ev = Raise e ->
  parse_events_by_type (VList (map raw_event_doc es ++ ev :: rest)) = Raise e.
Proof.
  intros Hev. unfold parse_events_by_type. cbn [py_iter bind].
  rewrite foldM_app, foldM_map.
  rewrite (foldM_pure _
             (fun ix e0 =>
                fold_left
                  (fun ix a => append_value ix (raw_type e0) (raw_key a) (attribute_value a))
                  (raw_attributes e0) ix))
    by (intros s e0 _; apply index_event_doc).
  cbn [bind foldM].
  match goal with
  | |- context [index_event ?ix ev] =>
      pose proof (index_event_outcome [] ix ev) as Hout;
      rewrite Hev in Hout;
      destruct (index_event ix ev) as [s |]; simpl in Hout
  end; [contradiction | now subst].
Qed.

(** X2 on a transfer followed by an event that has no attributes entry. *)
Lemma parse_events_by_type_fail_fast_witness :
  parse_events_by_type
    (VList (map raw_event_doc transfer_example ++
            VDict [("type", VStr "message")] :: [VDict []])) =
  Raise (KeyError "attributes").
Proof.
  apply (parse_events_by_type_fail_fast transfer_example
           (VDict [("type", VStr "message")]) [VDict []] (KeyError "attributes")).
  reflexivity.
Defined.

(** ** What [parse_tx_logs] returns *)

Lemma enumerate_from_app {A : Type} (i : Z) (l1 l2 : list A) :
  enumerate_from i (l1 ++ l2) =
  enumerate_from i l1 ++ enumerate_from (i + Z.of_nat (List.length l1)) l2.
Proof.
  revert i. induction l1 as [| a rest IH]; intros i; simpl.
  - now rewrite Z.add_0_r.
  - rewrite IH. do 3 f_equal. lia.
Qed.

Lemma TxLog_init_Ok (i : Z) (l e : value) (t : TxLog) :
  TxLog_init i l e = Ok t ->
  msg_index t = i /\ log t = l /\ events t = e /\
  parse_events_by_type e = Ok (events_by_type t).
Proof.
  unfold TxLog_init. intros H. apply bind_Ok in H as (ix & Hix & H).
  injection H as <-. now repeat split.
Qed.

Lemma py_iter_truthy (v : value) (items : list value) :
  py_bool v = true -> py_iter v = Ok items -> items <> [].
Proof.
  destruct v as [| z | s | l | d]; simpl; intros Hb Hi; try discriminate;
    injection Hi as <-.
  - destruct s; [discriminate | discriminate].
  - now destruct l.
  - now destruct d.
Qed.

(** X3: the result is "no logs" exactly for an input that tests false
    ([None], the empty list, but also [0], the empty string and the empty
    dict); any other input gives a list of logs or raises. *)
Theorem parse_tx_logs_None_iff (logs : value) :
  parse_tx_logs logs = Ok None <-> py_bool logs = false.
Proof.
  unfold parse_tx_logs. destruct (py_bool logs); split; intros H;
    try reflexivity; try discriminate.
  apply bind_Ok in H as (items & _ & H). apply bind_Ok in H as (parsed & _ & H).
  discriminate.
Qed.

(** X4: whatever the input, a list of logs that [parse_tx_logs] returns is
    never empty, numbers its logs 0, 1, 2, ... in order, and holds in each
    log the index of that log's own events, a well-formed one. *)
Theorem parse_tx_logs_Some (logs : value) (ls : list TxLog) :
  parse_tx_logs logs = Ok (Some ls) ->
  ls <> [] /\
  map msg_index ls = map Z.of_nat (seq 0 (List.length ls)) /\
  Forall (fun t => parse_events_by_type (events t) = Ok (events_by_type t) /\
                   index_ok (events_by_type t)) ls.
Proof.
  unfold parse_tx_logs. destruct (py_bool logs) eqn:Hb; [| discriminate].
  intros H. apply bind_Ok in H as (items & Hi & H).
  apply bind_Ok in H as (parsed & Hm & H). injection H as <-.
  apply mapM_Ok in Hm.
  assert (Hlen : List.length (enumerate items) = List.length parsed)
    by (eapply Forall2_length; exact Hm).
  assert (Hitems : List.length (enumerate items) = List.length items).
  { unfold enumerate. rewrite <- (length_map fst), enumerate_from_fst.
    now rewrite length_map, length_seq. }
  split; [| split].
  - intros ->. apply (py_iter_truthy logs items Hb Hi).
    destruct items; [reflexivity | simpl in *; congruence].
  - rewrite <- Hlen, Hitems.
    replace (map Z.of_nat (seq 0 (List.length items)))
      with (map fst (enumerate items))
      by (unfold enumerate; rewrite enumerate_from_fst; apply map_ext; intros n; lia).
    clear Hlen Hitems. induction Hm as [| [i item] t l1 l2 Ht _ IH]; simpl;
      [reflexivity |].
    apply bind_Ok in Ht as (l & _ & Ht). apply bind_Ok in Ht as (e & _ & Ht).
    apply TxLog_init_Ok in Ht as (-> & _). now rewrite IH.
  - clear Hlen Hitems. induction Hm as [| [i item] t l1 l2 Ht _ IH];
      constructor; [| exact IH].
    apply bind_Ok in Ht as (l & _ & Ht). apply bind_Ok in Ht as (e & _ & Ht).
    apply TxLog_init_Ok in Ht as (_ & _ & He & Hix). rewrite He.
    split; [exact Hix | exact (parse_events_by_type_index_ok e _ Hix)].
Qed.

(** X4 on a record with one transfer event and a record with no event. *)
Lemma parse_tx_logs_Some_witness :
  exists ls : list TxLog,
    parse_tx_logs
      (VList [raw_log_doc (mkRawLog (Some (VStr "")) transfer_example);
              raw_log_doc (mkRawLog None [])]) = Ok (Some ls) /\
    ls <> [] /\
    map msg_index ls = [0; 1] /\
    Forall (fun t => parse_events_by_type (events t) = Ok (events_by_type t) /\
                     index_ok (events_by_type t)) ls.
Proof.
  eexists. split; [reflexivity |].
  exact (parse_tx_logs_Some
           (VList [raw_log_doc (mkRawLog (Some (VStr "")) transfer_example);
                   raw_log_doc (mkRawLog None [])])
           _ eq_refl).
Defined.

(** X5: parsing logs is fail-fast.  After any well-formed records, a record
    without an events entry ends the call with [TypeError], whatever
    follows it: the logs of the records before it are not returned. *)
Theorem parse_tx_logs_fail_fast
        (rs : list raw_log) (d : list (string * value)) (rest : list value) :
  dict_lookup String.eqb "events" d = None ->
  parse_tx_logs (VList (map raw_log_doc rs ++ VDict d :: rest)) = Raise TypeError.
Proof.
  intros Hd. unfold parse_tx_logs.
  assert (Hb : py_bool (VList (map raw_log_doc rs ++ VDict d :: rest)) = true)
    by (simpl; now destruct (map raw_log_doc rs)).
  rewrite Hb. cbn [py_iter bind]. unfold enumerate.
  rewrite enumerate_from_app, mapM_app, enumerate_from_map, mapM_map.
  rewrite (mapM_pure _ (fun ir => TxLog_of (fst ir) (snd ir))).
  - cbn [bind enumerate_from mapM py_get]. rewrite Hd.
    destruct (dict_lookup String.eqb "log" d); reflexivity.
  - intros [i r] _. cbn [fst snd]. unfold TxLog_of, log_text, raw_log_doc.
    destruct r as [[t |] es]; cbn [raw_log_text raw_events app];
      cbn [py_get dict_lookup String.eqb Ascii.eqb Bool.eqb bind];
      unfold TxLog_init; now rewrite parse_events_by_type_doc.
Qed.

(** X5 on a well-formed record followed by one with a log text only. *)
Lemma parse_tx_logs_fail_fast_witness :
  parse_tx_logs
    (VList (map raw_log_doc [mkRawLog None transfer_example] ++
            VDict [("log", VStr "out of gas")] :: [])) = Raise TypeError.
Proof.
  apply (parse_tx_logs_fail_fast [mkRawLog None transfer_example]
           [("log", VStr "out of gas")] []).
  reflexivity.
Defined.

(** ** More on appending empty signatures *)

Lemma built_signer_infos_outcome (signers : list SignerData) :
  snd (built_signer_infos signers) =
  if forallb (fun s => negb (is_multisig s)) signers
  then Ok tt else Raise NotImplementedError.
Proof.
  induction signers as [| s rest IH]; simpl; [reflexivity |].
  destruct (is_multisig s) eqn:Hs; simpl.
  - now rewrite (empty_signer_info_multisig s Hs).
  - rewrite (empty_signer_info_single s Hs).
    destruct (built_signer_infos rest) as [sis r]. exact IH.
Qed.

Section MoreSignatures.

Context {C : Collaborators}.

(** X6: appending for a list of signers in two calls, one per part of the
    list, is the same as appending in one call, as long as the first call
    returns; when it raises, the one call raises the same way and leaves the
    same transaction. *)
Theorem append_empty_signatures_app (self : Tx) (signers1 signers2 : list SignerData) :
  append_empty_signatures self (signers1 ++ signers2) =
  match append_empty_signatures self signers1 with
  | (self1, Ok _) => append_empty_signatures self1 signers2
  | (self1, Raise e) => (self1, Raise e)
  end.
Proof.
  revert self. induction signers1 as [| s rest IH]; intros self; simpl.
  - reflexivity.
  - destruct (empty_signer_info s) as [si | e]; [| reflexivity].
    destruct (py_append _ _) as [sigs | e]; [apply IH | reflexivity].
Qed.

(** X7: whatever the signers and however the call ends, it leaves the body
    and the fee as they were and keeps the signer infos that were there, in
    their order, before the ones it appends. *)
Theorem append_empty_signatures_frame (self : Tx) (signers : list SignerData) :
  body (fst (append_empty_signatures self signers)) = body self /\
  fee (auth_info (fst (append_empty_signatures self signers))) = fee (auth_info self) /\
  exists sis : list SignerInfo,
    signer_infos (auth_info (fst (append_empty_signatures self signers))) =
    signer_infos (auth_info self) ++ sis /\
    (List.length sis <= List.length signers)%nat.
Proof.
  revert self. induction signers as [| s rest IH]; intros self; simpl.
  - repeat split. exists []. now rewrite app_nil_r.
  - destruct (empty_signer_info s) as [si | e]; cbn [fst].
    + destruct (py_append _ _) as [sigs | e]; cbn [fst].
      * destruct (IH (with_signatures (with_signer_info self si) sigs))
          as (Hb & Hf & sis & Hs & Hl).
        rewrite Hb, Hf, Hs. cbn [with_signatures with_signer_info body auth_info
                                  signer_infos fee].
        repeat split. exists (si :: sis). rewrite <- app_assoc.
        split; [reflexivity | simpl; lia].
      * cbn [with_signer_info body auth_info signer_infos fee].
        repeat split. exists [si]. split; [reflexivity | simpl; lia].
    + repeat split. exists []. rewrite app_nil_r. split; [reflexivity | simpl; lia].
Qed.

(** X8: on a transaction whose signatures are a list, the call returns
    exactly when no signer carries a multisig key, and otherwise raises
    [NotImplementedError] and nothing else. *)
Theorem append_empty_signatures_outcome
        (self : Tx) (sigs : list value) (signers : list SignerData) :
  signatures self = VList sigs ->
  snd (append_empty_signatures self signers) =
  if forallb (fun s => negb (is_multisig s)) signers
  then Ok tt else Raise NotImplementedError.
Proof.
  intros Hs. rewrite (append_empty_signatures_built signers self sigs Hs).
  cbn [snd]. apply built_signer_infos_outcome.
Qed.

(** X9: on a transaction whose signatures are a list, the call appends as
    many placeholders as signer infos, also when it raises: if the two
    sequences had the same length before the call, they have the same length
    after it. *)
Theorem append_empty_signatures_in_step
        (self : Tx) (sigs : list value) (signers : list SignerData) :
  signatures self = VList sigs ->
  List.length sigs = List.length (signer_infos (auth_info self)) ->
  exists sigs' : list value,
    signatures (fst (append_empty_signatures self signers)) = VList sigs' /\
    List.length sigs' =
    List.length (signer_infos (auth_info (fst (append_empty_signatures self signers)))).
Proof.
  intros Hs Hlen. rewrite (append_empty_signatures_built signers self sigs Hs).
  cbn [fst extended signatures auth_info signer_infos].
  eexists. split; [reflexivity |].
  rewrite !length_app, repeat_length. lia.
Qed.

End MoreSignatures.

(** X8 on a keyless and a simple-key signer, which return, and on a
    multisig signer, which raises. *)
Lemma append_empty_signatures_outcome_witness :
  snd (append_empty_signatures empty_tx
         [mkSignerData 0 None; mkSignerData 1 (Some (SimplePublicKey "A"))]) = Ok tt /\
  snd (append_empty_signatures empty_tx
         [mkSignerData 0 None; mkSignerData 1 (Some two_key_multisig)]) =
  Raise NotImplementedError.
Proof.
  split.
  - exact (@append_empty_signatures_outcome sample empty_tx []
             [mkSignerData 0 None; mkSignerData 1 (Some (SimplePublicKey "A"))] eq_refl).
  - exact (@append_empty_signatures_outcome sample empty_tx []
             [mkSignerData 0 None; mkSignerData 1 (Some two_key_multisig)] eq_refl).
Defined.

(** X9 on the empty transaction and a keyless signer followed by a multisig
    signer, where the call raises after one append to each sequence. *)
Lemma append_empty_signatures_in_step_witness :
  exists sigs' : list value,
    signatures (fst (append_empty_signatures empty_tx
                       [mkSignerData 0 None; mkSignerData 1 (Some two_key_multisig)])) =
    VList sigs' /\
    List.length sigs' =
    List.length (signer_infos (auth_info (fst (append_empty_signatures empty_tx
                       [mkSignerData 0 None; mkSignerData 1 (Some two_key_multisig)])))).
Proof.
  exact (@append_empty_signatures_in_step sample empty_tx []
           [mkSignerData 0 None; mkSignerData 1 (Some two_key_multisig)]
           eq_refl eq_refl).
Defined.

(** X10 on the empty transaction and two signers without a multisig key. *)
Lemma append_empty_signatures_single_witness :
  append_empty_signatures empty_tx
    [mkSignerData 3 None; mkSignerData 4 (Some (SimplePublicKey "A"))] =
  (@mkTx sample (body empty_tx)
         (@mkAuthInfo sample
            [mkSignerInfo (SimplePublicKey "") 3 single_direct;
             mkSignerInfo (SimplePublicKey "A") 4 single_direct]
            sample_fee)
         (VList [VStr " "; VStr " "]),
   Ok tt).
Proof.
  exact (@append_empty_signatures_single sample empty_tx []
           [mkSignerData 3 None; mkSignerData 4 (Some (SimplePublicKey "A"))]
           eq_refl eq_refl).
Defined.

(** ** The one-of of a serialized mode info *)

(** X11: a message that [ModeInfo.to_proto] returns has exactly one member
    of its one-of set, and it is the single one exactly when the mode info
    has a single mode, whatever its multi mode. *)
Theorem ModeInfo_to_proto_one_of {C : Collaborators}
        (m : ModeInfo) (p : ModeInfo_pb ModeInfoMulti_pb) :
  ModeInfo_to_proto m = Ok p ->
  xorb (opt_obj_bool (pb_single p)) (opt_obj_bool (pb_multi p)) = true /\
  opt_obj_bool (pb_single p) = opt_obj_bool (single_mode m).
Proof.
  unfold ModeInfo_to_proto. destruct m as [[s |] [mm |]]; cbn [single_mode multi_mode];
    intros H; try discriminate.
  - injection H as <-. split; reflexivity.
  - injection H as <-. split; reflexivity.
  - apply bind_Ok in H as (q & _ & H). injection H as <-. split; reflexivity.
Qed.

(** X11 on a mode info with both modes set. *)
Lemma ModeInfo_to_proto_one_of_witness :
  xorb (opt_obj_bool (pb_single (mkModeInfo_pb (Multi_pb := unit)
                                   (Some (mkModeInfoSingle_pb 1)) None)))
       (opt_obj_bool (pb_multi (mkModeInfo_pb (Multi_pb := unit)
                                  (Some (mkModeInfoSingle_pb 1)) None))) = true /\
  opt_obj_bool (pb_single (mkModeInfo_pb (Multi_pb := unit)
                             (Some (mkModeInfoSingle_pb 1)) None)) =
  opt_obj_bool (single_mode both_modes).
Proof.
  exact (@ModeInfo_to_proto_one_of sample both_modes
           (mkModeInfo_pb (Some (mkModeInfoSingle_pb 1)) None) eq_refl).
Defined.

(** ** The body of a transaction and the value envelope *)

Lemma mapM_inverse {A B : Type} (f : A -> result B) (g : B -> result A)
      (l : list A) (bs : list B) :
  mapM f l = Ok bs ->
  (forall a b, In a l -> f a = Ok b -> g b = Ok a) ->
  mapM g bs = Ok l.
Proof.
  revert bs. induction l as [| a rest IH]; intros bs H Hinv; simpl in H.
  - injection H as <-. reflexivity.
  - apply bind_Ok in H as (b & Hb & H). apply bind_Ok in H as (bs' & Hbs & H).
    injection H as <-. simpl.
    rewrite (Hinv a b (or_introl eq_refl) Hb). simpl.
    rewrite (IH bs' Hbs) by (intros a' b' Hin; apply Hinv; now right).
    reflexivity.
Qed.

Section Envelope.

Context {C : Collaborators}.

(** X12: the document of a body, put under the key "value" of any dict, is
    read back by [TxBody.from_data] as the body with its memo and timeout
    height as [to_data] wrote them, provided that each message is read back
    from its own document. *)
Theorem TxBody_from_data_enveloped
        (x : TxBody) (d : value) (envelope : list (string * value)) :
  TxBody_to_data x = Ok d ->
  dict_lookup String.eqb "value" envelope = Some d ->
  (forall m dm, In m (messages x) -> Msg_to_data m = Ok dm -> Msg_from_data dm = Ok m) ->
  TxBody_from_data (VDict envelope) = Ok (normal_body x).
Proof.
  unfold TxBody_to_data. intros H Henv Hmsg.
  apply bind_Ok in H as (ms & Hms & H). injection H as <-.
  unfold TxBody_from_data. cbn [py_getitem]. rewrite Henv.
  cbn [bind py_getitem dict_lookup String.eqb Ascii.eqb Bool.eqb py_iter].
  rewrite (mapM_inverse _ _ _ _ Hms Hmsg). reflexivity.
Qed.

(** A body is written as it is when its memo is a non-empty string or the
    empty string and its timeout height a non-zero number or 0. *)
Lemma normal_body_fixed (x : TxBody) :
  (py_bool (memo x) = true \/ memo x = VStr "") ->
  (py_bool (timeout_height x) = true \/ timeout_height x = VInt 0) ->
  normal_body x = x.
Proof.
  unfold normal_body. intros [Hm | Hm] [Ht | Ht]; rewrite ?Hm, ?Ht;
    destruct x; simpl in *; subst; reflexivity.
Qed.

End Envelope.

(** X12 on a body with two messages, no memo and no timeout height. *)
Lemma TxBody_from_data_enveloped_witness :
  @TxBody_from_data sample
    (VDict [("type", VStr "TxBody");
            ("value", VDict [("messages", VList [VStr "send"; VStr "swap"]);
                             ("memo", VStr "");
                             ("timeout_height", VInt 0)])]) =
  Ok (@mkTxBody sample [VStr "send"; VStr "swap"] (VStr "") (VInt 0)).
Proof.
  apply (@TxBody_from_data_enveloped sample
           (@mkTxBody sample [VStr "send"; VStr "swap"] VNone VNone)
           (VDict [("messages", VList [VStr "send"; VStr "swap"]);
                   ("memo", VStr "");
                   ("timeout_height", VInt 0)])).
  - reflexivity.
  - reflexivity.
  - intros m dm _ H. cbn in H. injection H as <-. reflexivity.
Defined.

(** ** More on receipts *)

Section MoreReceipts.

Context {C : Collaborators}.

(** X13: in the document of a receipt each of "logs", "code" and
    "codespace" is present exactly when the field tests true, and then holds
    the field: an empty list of logs, a code 0 and an empty codespace are
    left out like [None], and no such key ever holds [None]. *)
Theorem TxInfo_to_data_optional_iff (x : TxInfo) (t : value) (ds : list value) :
  Tx_to_data (tx x) = Ok t ->
  mapM TxLog_to_data (logs_or_empty x) = Ok ds ->
  exists d : list (string * value),
    TxInfo_to_data x = Ok (VDict d) /\
    dict_lookup String.eqb "logs" d =
      (if opt_list_bool (logs x) then Some (VList ds) else None) /\
    dict_lookup String.eqb "code" d =
      (if py_bool (code x) then Some (code x) else None) /\
    dict_lookup String.eqb "codespace" d =
      (if py_bool (codespace x) then Some (codespace x) else None).
Proof.
  intros Ht Hl. exists (TxInfo_entries x t ds).
  split; [now apply TxInfo_to_data_entries |].
  now rewrite TxInfo_entries_logs, TxInfo_entries_code, TxInfo_entries_codespace.
Qed.

(** X14: the document of a receipt holds the height, the gas wanted and the
    gas used as strings, each the decimal numeral of the number: read as a
    decimal numeral it gives the number back. *)
Theorem TxInfo_to_data_quantities (x : TxInfo) (t : value) (ds : list value) :
  Tx_to_data (tx x) = Ok t ->
  mapM TxLog_to_data (logs_or_empty x) = Ok ds ->
  exists (d : list (string * value)) (h gw gu : string),
    TxInfo_to_data x = Ok (VDict d) /\
    dict_lookup String.eqb "height" d = Some (VStr h) /\
    dict_lookup String.eqb "gas_wanted" d = Some (VStr gw) /\
    dict_lookup String.eqb "gas_used" d = Some (VStr gu) /\
    option_map Z.of_int (NilZero.int_of_string h) = Some (height x) /\
    option_map Z.of_int (NilZero.int_of_string gw) = Some (gas_wanted x) /\
    option_map Z.of_int (NilZero.int_of_string gu) = Some (gas_used x).
Proof.
  intros Ht Hl.
  exists (TxInfo_entries x t ds), (str (height x)), (str (gas_wanted x)), (str (gas_used x)).
  split; [now apply TxInfo_to_data_entries |].
  destruct (TxInfo_entries_quantities x t ds) as (Hh & Hgw & Hgu).
  repeat split; try assumption; apply str_is_decimal.
Qed.

(** X15: a receipt that [TxInfo.from_data] reads from a document holds the
    code and the codespace of the document, or [None] for a missing one, and
    holds no logs exactly when the logs of the document are missing or test
    false, as the empty list does. *)
Theorem TxInfo_from_data_optional (d : list (string * value)) (x : TxInfo) :
  TxInfo_from_data (VDict d) = Ok x ->
  code x = match dict_lookup String.eqb "code" d with Some c => c | None => VNone end /\
  codespace x =
    match dict_lookup String.eqb "codespace" d with Some c => c | None => VNone end /\
  (logs x = None <->
   py_bool match dict_lookup String.eqb "logs" d with Some l => l | None => VNone end
   = false).
Proof.
  unfold TxInfo_from_data. intros H.
  apply bind_Ok in H as (h & _ & H). apply bind_Ok in H as (th & _ & H).
  apply bind_Ok in H as (rl & _ & H). apply bind_Ok in H as (ls & Hls & H).
  apply bind_Ok in H as (gw & _ & H). apply bind_Ok in H as (gu & _ & H).
  apply bind_Ok in H as (t & _ & H). apply bind_Ok in H as (ts & _ & H).
  apply bind_Ok in H as (c & Hc & H). apply bind_Ok in H as (cs & Hcs & H).
  apply bind_Ok in H as (h' & _ & H). apply bind_Ok in H as (gw' & _ & H).
  apply bind_Ok in H as (gu' & _ & H). injection H as <-. cbn [code codespace logs].
  cbn [py_get] in Hc, Hcs, Hls.
  split; [| split].
  - destruct (dict_lookup String.eqb "code" d); now injection Hc as <-.
  - destruct (dict_lookup String.eqb "codespace" d); now injection Hcs as <-.
  - apply bind_Ok in Hls as (l & Hl & Hls).
    assert (l = match dict_lookup String.eqb "logs" d with Some l => l | None => VNone end)
      as <- by (destruct (dict_lookup String.eqb "logs" d); now injection Hl as <-).
    unfold parse_tx_logs in Hls. destruct (py_bool l).
    + apply bind_Ok in Hls as (items & _ & Hls).
      apply bind_Ok in Hls as (parsed & _ & Hls). injection Hls as <-.
      split; discriminate.
    + injection Hls as <-. split; reflexivity.
Qed.

End MoreReceipts.

(** X13 on the receipt whose three optional fields all test false. *)
Lemma TxInfo_to_data_optional_iff_witness :
  exists d : list (string * value),
    TxInfo_to_data falsy_receipt = Ok (VDict d) /\
    dict_lookup String.eqb "logs" d = None /\
    dict_lookup String.eqb "code" d = None /\
    dict_lookup String.eqb "codespace" d = None.
Proof.
  exact (@TxInfo_to_data_optional_iff sample falsy_receipt empty_tx_doc []
           eq_refl eq_refl).
Defined.

(** X14 on the receipt at height 100 with gas 200000 and 150000. *)
Lemma TxInfo_to_data_quantities_witness :
  exists (d : list (string * value)) (h gw gu : string),
    TxInfo_to_data falsy_receipt = Ok (VDict d) /\
    dict_lookup String.eqb "height" d = Some (VStr h) /\
    dict_lookup String.eqb "gas_wanted" d = Some (VStr gw) /\
    dict_lookup String.eqb "gas_used" d = Some (VStr gu) /\
    option_map Z.of_int (NilZero.int_of_string h) = Some 100 /\
    option_map Z.of_int (NilZero.int_of_string gw) = Some 200000 /\
    option_map Z.of_int (NilZero.int_of_string gu) = Some 150000.
Proof.
  exact (@TxInfo_to_data_quantities sample falsy_receipt empty_tx_doc []
           eq_refl eq_refl).
Defined.

(** X15 on that document. *)
Lemma TxInfo_from_data_optional_witness :
  @TxInfo_from_data sample (VDict enveloped_receipt_doc) = Ok (receipt VNone VNone) /\
  code (receipt VNone VNone) = VNone /\
  codespace (receipt VNone VNone) = VNone /\
  (logs (receipt VNone VNone) = None <-> py_bool (VList []) = false).
Proof.
  split; [reflexivity |].
  exact (@TxInfo_from_data_optional sample enveloped_receipt_doc
           (receipt VNone VNone) eq_refl).
Defined.

(** ** The document of a transaction after appending *)

Section AppendThenEncode.

Context {C : Collaborators}.

Lemma built_signer_infos_docs (signers : list SignerData) (pks : list value) :
  mapM (fun s => PublicKey_to_data (signer_key s)) signers = Ok pks ->
  mapM SignerInfo_to_data
       (map (fun s => mkSignerInfo (signer_key s) (signer_sequence s) single_direct)
            signers) =
  Ok (map (fun sp => empty_signer_doc (fst sp) (snd sp)) (combine signers pks)).
Proof.
  revert pks. induction signers as [| s rest IH]; intros pks H; simpl in H.
  - injection H as <-. reflexivity.
  - apply bind_Ok in H as (pk & Hpk & H). apply bind_Ok in H as (pks' & Hpks & H).
    injection H as <-. simpl. unfold SignerInfo_to_data at 1.
    cbn [public_key sequence mode_info]. rewrite Hpk. cbn [bind].
    change (ModeInfo_to_data single_direct)
      with (Ok (A := value) (VDict [("single", VNone); ("multi", VNone)])).
    cbn [bind]. now rewrite (IH pks' Hpks).
Qed.

(** X16: encoding after appending.  When a transaction encodes and its
    signatures are a list, then after [append_empty_signatures] for signers
    without a multisig key whose keys encode, it encodes to the same
    document with one entry more per signer in "signer_infos" and one " "
    more per signer in "signatures", in the order of the signers; each new
    signer info entry has its sequence as an [int] and a "mode_info" whose
    "single" and "multi" are both [None]. *)
Theorem Tx_to_data_after_append
        (self : Tx) (signers : list SignerData)
        (b f : value) (sis sigs pks : list value) :
  Tx_to_data self =
  Ok (VDict [("body", b);
             ("auth_info", VDict [("signer_infos", VList sis); ("fee", f)]);
             ("signatures", VList sigs)]) ->
  forallb (fun s => negb (is_multisig s)) signers = true ->
  mapM (fun s => PublicKey_to_data (signer_key s)) signers = Ok pks ->
  Tx_to_data (fst (append_empty_signatures self signers)) =
  Ok (VDict [("body", b);
             ("auth_info",
              VDict [("signer_infos",
                      VList (sis ++ map (fun sp => empty_signer_doc (fst sp) (snd sp))
                                        (combine signers pks)));
                     ("fee", f)]);
             ("signatures", VList (sigs ++ repeat (VStr " ") (List.length signers)))]).
Proof.
  intros H Hsingle Hpks. unfold Tx_to_data in H.
  apply bind_Ok in H as (b0 & Hb & H). apply bind_Ok in H as (a0 & Ha & H).
  injection H as -> -> Hsigs.
  unfold AuthInfo_to_data in Ha.
  apply bind_Ok in Ha as (sis0 & Hsis & Ha). apply bind_Ok in Ha as (f0 & Hf & Ha).
  injection Ha as -> ->.
  rewrite (append_empty_signatures_built signers self sigs Hsigs).
  rewrite (built_signer_infos_single signers Hsingle).
  cbn [fst]. unfold extended, Tx_to_data.
  cbn [body auth_info signatures]. rewrite Hb. cbn [bind].
  unfold AuthInfo_to_data. cbn [signer_infos fee].
  rewrite mapM_app, Hsis. cbn [bind].
  change (fun s : SignerData =>
            mkSignerInfo
              match signer_public_key s with
              | Some pk => pk
              | None => SimplePublicKey ""
              end (signer_sequence s) single_direct)
    with (fun s => mkSignerInfo (signer_key s) (signer_sequence s) single_direct).
  rewrite (built_signer_infos_docs signers pks Hpks). cbn [bind].
  rewrite Hf. cbn [bind]. now rewrite length_map.
Qed.

End AppendThenEncode.

(** X16 on the empty transaction, a keyless signer and a simple-key signer. *)
Lemma Tx_to_data_after_append_witness :
  Tx_to_data (fst (append_empty_signatures empty_tx
                     [mkSignerData 3 None; mkSignerData 4 (Some (SimplePublicKey "A"))])) =
  Ok (VDict [("body", VDict [("messages", VList []); ("memo", VStr "");
                            ("timeout_height", VInt 0)]);
             ("auth_info",
              VDict [("signer_infos",
                      VList [VDict [("public_key", VDict [("key", VStr "")]);
                                    ("sequence", VInt 3);
                                    ("mode_info", VDict [("single", VNone); ("multi", VNone)])];
                             VDict [("public_key", VDict [("key", VStr "A")]);
                                    ("sequence", VInt 4);
                                    ("mode_info", VDict [("single", VNone); ("multi", VNone)])]]);
                     ("fee", sample_fee)]);
             ("signatures", VList [VStr " "; VStr " "])]).
Proof.
  exact (@Tx_to_data_after_append sample empty_tx
           [mkSignerData 3 None; mkSignerData 4 (Some (SimplePublicKey "A"))]
           _ _ [] [] [VDict [("key", VStr "")]; VDict [("key", VStr "A")]]
           eq_refl eq_refl eq_refl).
Defined.

(** ** The authorization info and the value envelope *)

Section AuthEnvelope.

Context {C : Collaborators}.

(** X17: the document of an authorization info, put under the key "value"
    of any dict, is read back by [AuthInfo.from_data] only when there is no
    signer info, provided the fee is read back from its document; with at
    least one signer info the reading raises [KeyError "value"], since the
    documents of the signer infos have no envelope of their own. *)
Theorem AuthInfo_from_data_enveloped
        (x : AuthInfo) (d : value) (envelope : list (string * value)) :
  AuthInfo_to_data x = Ok d ->
  dict_lookup String.eqb "value" envelope = Some d ->
  (signer_infos x <> [] ->
   AuthInfo_from_data (VDict envelope) = Raise (KeyError "value")) /\
  (signer_infos x = [] ->
   (forall fd, Fee_to_data (fee x) = Ok fd -> Fee_from_data fd = Ok (fee x)) ->
   AuthInfo_from_data (VDict envelope) = Ok x).
Proof.
  unfold AuthInfo_to_data. intros H Henv.
  apply bind_Ok in H as (sis & Hsis & H). apply bind_Ok in H as (f & Hf & H).
  injection H as <-.
  unfold AuthInfo_from_data. cbn [py_getitem]. rewrite Henv.
  cbn [bind py_getitem dict_lookup String.eqb Ascii.eqb Bool.eqb py_iter].
  split.
  - intros Hne. destruct (signer_infos x) as [| si rest]; [contradiction |].
    simpl in Hsis. apply bind_Ok in Hsis as (sd & Hsd & Hsis).
    apply bind_Ok in Hsis as (sds & _ & Hsis). injection Hsis as <-.
    cbn [mapM]. now rewrite (SignerInfo_from_data_of_to_data si sd Hsd).
  - intros Hnil Hfee. rewrite Hnil in Hsis. injection Hsis as <-.
    cbn [mapM bind]. rewrite (Hfee f Hf). cbn [bind].
    destruct x as [sis' f']. cbn in Hnil. now subst.
Qed.

End AuthEnvelope.

(** X17 on an authorization info with the signer info of a simple key. *)
Lemma AuthInfo_from_data_enveloped_witness :
  @AuthInfo_from_data sample
    (VDict [("value",
             VDict [("signer_infos",
                     VList [VDict [("public_key", VDict [("key", VStr "A")]);
                                   ("sequence", VInt 5);
                                   ("mode_info",
                                    VDict [("single", VNone); ("multi", VNone)])]]);
                    ("fee", sample_fee)])]) =
  Raise (KeyError "value").
Proof.
  apply (proj1 (@AuthInfo_from_data_enveloped sample
           (@mkAuthInfo sample [direct_signer_info] sample_fee)
           (VDict [("signer_infos",
                    VList [VDict [("public_key", VDict [("key", VStr "A")]);
                                  ("sequence", VInt 5);
                                  ("mode_info",
                                   VDict [("single", VNone); ("multi", VNone)])]]);
                   ("fee", sample_fee)])
           [("value",
             VDict [("signer_infos",
                     VList [VDict [("public_key", VDict [("key", VStr "A")]);
                                   ("sequence", VInt 5);
                                   ("mode_info",
                                    VDict [("single", VNone); ("multi", VNone)])]]);
                    ("fee", sample_fee)])]
           eq_refl eq_refl)).
  discriminate.
Defined.

(** ** Serialization to protobuf messages *)

Lemma mapM_length {A B : Type} (f : A -> result B) (l : list A) (bs : list B) :
  mapM f l = Ok bs -> List.length bs = List.length l.
Proof.
  intros H. apply mapM_Ok in H. symmetry. eapply Forall2_length. exact H.
Qed.

Section ProtoFacts.

Context {C : Collaborators} {P : ProtoCollaborators}.

Lemma built_signer_infos_pbs (signers : list SignerData) (pks : list Any_pb) :
  mapM (fun s => PublicKey_pack_any (signer_key s)) signers = Ok pks ->
  mapM SignerInfo_to_proto
       (map (fun s => mkSignerInfo (signer_key s) (signer_sequence s) single_direct)
            signers) =
  Ok (map (fun sp => empty_signer_pb (fst sp) (snd sp)) (combine signers pks)).
Proof.
  revert pks. induction signers as [| s rest IH]; intros pks H; simpl in H.
  - injection H as <-. reflexivity.
  - apply bind_Ok in H as (pk & Hpk & H). apply bind_Ok in H as (pks' & Hpks & H).
    injection H as <-. simpl. unfold SignerInfo_to_proto at 1.
    cbn [public_key sequence mode_info]. rewrite Hpk. cbn [bind].
    change (ModeInfo_to_proto single_direct)
      with (Ok (A := ModeInfo_pb ModeInfoMulti_pb)
               (mkModeInfo_pb (Some (mkModeInfoSingle_pb 1)) None)).
    cbn [bind]. now rewrite (IH pks' Hpks).
Qed.

Lemma mapM_py_encode_placeholders (n : nat) :
  mapM py_encode (repeat (VStr " ") n) = Ok (repeat (str_encode " ") n).
Proof.
  induction n as [| n IH]; simpl; [reflexivity | now rewrite IH].
Qed.

(** X18: serializing after appending.  When a transaction serializes and
    its signatures are a list, then after [append_empty_signatures] for
    signers without a multisig key whose keys pack, it serializes to the
    same message with one signer info more per signer, each in single mode
    with the mode number 1, and one encoded " " more per signer, in the
    order of the signers. *)
Theorem Tx_to_proto_after_append
        (self : Tx) (signers : list SignerData) (p : Tx_pb)
        (sigs : list value) (pks : list Any_pb) :
  Tx_to_proto self = Ok p ->
  signatures self = VList sigs ->
  forallb (fun s => negb (is_multisig s)) signers = true ->
  mapM (fun s => PublicKey_pack_any (signer_key s)) signers = Ok pks ->
  Tx_to_proto (fst (append_empty_signatures self signers)) =
  Ok (mkTx_pb (pb_body p)
        (mkAuthInfo_pb (pb_fee (pb_auth_info p))
           (pb_signer_infos (pb_auth_info p) ++
            map (fun sp => empty_signer_pb (fst sp) (snd sp)) (combine signers pks)))
        (pb_signatures p ++ repeat (str_encode " ") (List.length signers))).
Proof.
  intros H Hsigs Hsingle Hpks. unfold Tx_to_proto in H.
  apply bind_Ok in H as (b & Hb & H). apply bind_Ok in H as (a & Ha & H).
  apply bind_Ok in H as (ss & Hss & H). injection H as <-.
  rewrite Hsigs in Hss. cbn [py_iter bind] in Hss.
  unfold AuthInfo_to_proto in Ha.
  apply bind_Ok in Ha as (f & Hf & Ha). apply bind_Ok in Ha as (sis & Hsis & Ha).
  injection Ha as <-.
  rewrite (append_empty_signatures_built signers self sigs Hsigs).
  rewrite (built_signer_infos_single signers Hsingle).
  cbn [fst]. unfold extended, Tx_to_proto.
  cbn [body auth_info signatures]. rewrite Hb. cbn [bind].
  unfold AuthInfo_to_proto. cbn [signer_infos fee]. rewrite Hf. cbn [bind].
  rewrite mapM_app, Hsis. cbn [bind].
  change (fun s : SignerData =>
            mkSignerInfo
              match signer_public_key s with
              | Some pk => pk
              | None => SimplePublicKey ""
              end (signer_sequence s) single_direct)
    with (fun s => mkSignerInfo (signer_key s) (signer_sequence s) single_direct).
  rewrite (built_signer_infos_pbs signers pks Hpks). cbn [bind py_iter].
  rewrite mapM_app, Hss. cbn [bind].
  rewrite length_map, mapM_py_encode_placeholders. reflexivity.
Qed.

(** X19: [Tx.to_proto] does not compare the two sequences: the message it
    returns has as many signer infos as the transaction and, when the
    signatures are a list, as many signatures, whether or not the two
    numbers agree. *)
Theorem Tx_to_proto_lengths (self : Tx) (p : Tx_pb) (sigs : list value) :
  Tx_to_proto self = Ok p ->
  signatures self = VList sigs ->
  List.length (pb_signer_infos (pb_auth_info p)) =
    List.length (signer_infos (auth_info self)) /\
  List.length (pb_signatures p) = List.length sigs.
Proof.
  intros H Hsigs. unfold Tx_to_proto in H.
  apply bind_Ok in H as (b & Hb & H). apply bind_Ok in H as (a & Ha & H).
  apply bind_Ok in H as (ss & Hss & H). injection H as <-.
  rewrite Hsigs in Hss. cbn [py_iter bind] in Hss.
  unfold AuthInfo_to_proto in Ha.
  apply bind_Ok in Ha as (f & Hf & Ha). apply bind_Ok in Ha as (sis & Hsis & Ha).
  injection Ha as <-. cbn [pb_auth_info pb_signer_infos pb_signatures].
  split; eapply mapM_length; eassumption.
Qed.

(** X20: on the wire and in the document a memo that tests false is the
    empty string alike, but the timeout height differs: [to_proto] passes it
    on as it is, [None] included, where [to_data] writes 0 for one that tests
    false. *)
Theorem TxBody_wire_and_document (x : TxBody) (p : TxBody_pb) (d : value) :
  TxBody_to_proto x = Ok p ->
  TxBody_to_data x = Ok d ->
  py_getitem d "memo" = Ok (pb_memo p) /\
  pb_timeout_height p = timeout_height x /\
  py_getitem d "timeout_height" =
    Ok (if py_bool (timeout_height x) then timeout_height x else VInt 0).
Proof.
  unfold TxBody_to_proto, TxBody_to_data. intros Hp Hd.
  apply bind_Ok in Hp as (ms & _ & Hp). injection Hp as <-.
  apply bind_Ok in Hd as (ds & _ & Hd). injection Hd as <-.
  repeat split.
Qed.

End ProtoFacts.

(** X18 on the empty transaction, a keyless signer and a simple-key signer. *)
Lemma Tx_to_proto_after_append_witness :
  @Tx_to_proto sample sample_proto
    (fst (append_empty_signatures empty_tx
            [mkSignerData 3 None; mkSignerData 4 (Some (SimplePublicKey "A"))])) =
  Ok (@mkTx_pb sample sample_proto
        (@mkTxBody_pb sample sample_proto [] (VStr "") (VInt 0))
        (@mkAuthInfo_pb sample sample_proto sample_fee
           [@mkSignerInfo_pb sample sample_proto (VDict [("key", VStr "")]) 3
              (mkModeInfo_pb (Some (mkModeInfoSingle_pb 1)) None);
            @mkSignerInfo_pb sample sample_proto (VDict [("key", VStr "A")]) 4
              (mkModeInfo_pb (Some (mkModeInfoSingle_pb 1)) None)])
        [" "%string; " "%string]).
Proof.
  exact (@Tx_to_proto_after_append sample sample_proto empty_tx
           [mkSignerData 3 None; mkSignerData 4 (Some (SimplePublicKey "A"))]
           _ [] [VDict [("key", VStr "")]; VDict [("key", VStr "A")]]
           eq_refl eq_refl eq_refl eq_refl).
Defined.

(** X19 on the transaction with two signatures and no signer info, which
    serializes. *)
Lemma Tx_to_proto_lengths_witness :
  exists p : @Tx_pb sample sample_proto,
    @Tx_to_proto sample sample_proto unmatched_tx = Ok p /\
    List.length (pb_signer_infos (pb_auth_info p)) = 0%nat /\
    List.length (pb_signatures p) = 2%nat.
Proof.
  eexists. split; [reflexivity |].
  exact (@Tx_to_proto_lengths sample sample_proto unmatched_tx _
           [VStr "s1"; VStr "s2"] eq_refl eq_refl).
Defined.

(** X20 on a body with no memo and no timeout height. *)
Lemma TxBody_wire_and_document_witness :
  py_getitem (VDict [("messages", VList []); ("memo", VStr "");
                     ("timeout_height", VInt 0)]) "memo" = Ok (VStr "") /\
  VNone = VNone /\
  py_getitem (VDict [("messages", VList []); ("memo", VStr "");
                     ("timeout_height", VInt 0)]) "timeout_height" = Ok (VInt 0).
Proof.
  exact (@TxBody_wire_and_document sample sample_proto
           (@mkTxBody sample [] VNone VNone)
           (@mkTxBody_pb sample sample_proto [] (VStr "") VNone)
           (VDict [("messages", VList []); ("memo", VStr "");
                   ("timeout_height", VInt 0)])
           eq_refl eq_refl).
Defined.

(** ** Indexing more events *)

Lemma append_value_keys (ix : event_index) (ty k : string) (v : value) :
  exists extra, map fst (append_value ix ty k v) = map fst ix ++ extra.
Proof.
  unfold append_value. rewrite (dict_set_keys hkey_eqb).
  destruct (dict_mem hkey_eqb (KStr ty) ix) eqn:Hm.
  - rewrite Hm. exists []. now rewrite app_nil_r.
  - unfold dict_mem at 1. rewrite (dict_lookup_set_same _ hkey_eqb_eq).
    rewrite (dict_set_keys hkey_eqb), Hm. now exists [KStr ty].
Qed.

Lemma fold_keys_prefix {A : Type} (step : event_index -> A -> event_index) (l : list A) :
  (forall ix a, exists extra, map fst (step ix a) = map fst ix ++ extra) ->
  forall ix, exists extra, map fst (fold_left step l ix) = map fst ix ++ extra.
Proof.
  intros Hstep. induction l as [| a rest IH]; intros ix; simpl.
  - exists []. now rewrite app_nil_r.
  - destruct (IH (step ix a)) as (e2 & H2). destruct (Hstep ix a) as (e1 & H1).
    exists (e1 ++ e2). now rewrite H2, H1, app_assoc.
Qed.

Lemma values_of_app (es1 es2 : list raw_event) (ty k : string) :
  values_of (es1 ++ es2) ty k = values_of es1 ty k ++ values_of es2 ty k.
Proof. unfold values_of. apply flat_map_app. Qed.

(** X21: indexing further events only appends.  The index of a sequence of
    well-formed events followed by more of them has the event types of the
    index of the first in the same order, followed by new ones, and under
    every type and key of the first the same values followed by those of the
    further events. *)
Theorem parse_events_by_type_extends (es1 es2 : list raw_event) :
  exists (ix1 ix2 : event_index) (extra : list hkey),
    parse_events_by_type (raw_events_doc es1) = Ok ix1 /\
    parse_events_by_type (raw_events_doc (es1 ++ es2)) = Ok ix2 /\
    map fst ix2 = map fst ix1 ++ extra /\
    forall (ty k : string) (vs : list value),
      index_lookup ix1 ty k = Some vs ->
      index_lookup ix2 ty k = Some (vs ++ values_of es2 ty k).
Proof.
  assert (Hkeys : exists extra,
             map fst (events_by_type_spec (es1 ++ es2)) =
             map fst (events_by_type_spec es1) ++ extra).
  { unfold events_by_type_spec. rewrite fold_left_app.
    apply fold_keys_prefix. intros ix e.
    apply fold_keys_prefix. intros ix' a. apply append_value_keys. }
  destruct Hkeys as (extra & Hkeys).
  exists (events_by_type_spec es1), (events_by_type_spec (es1 ++ es2)), extra.
  split; [apply parse_events_by_type_doc |].
  split; [apply parse_events_by_type_doc |].
  split; [exact Hkeys |].
  intros ty k vs. rewrite !index_lookup_spec, values_of_app.
  destruct (values_of es1 ty k) as [| v vs']; simpl; [discriminate |].
  now intros [= <-].
Qed.

(** ** Mode infos read from documents *)

Section ModeInfoDocuments.

Context {C : Collaborators}.

(** X22: [ModeInfo.from_data] populates each variant exactly when the entry
    of the document under "value" tests true: it builds a mode info with
    both variants, or with neither, when the document says so. *)
Theorem ModeInfo_from_data_variants
        (envelope d : list (string * value)) (m : ModeInfo) :
  dict_lookup String.eqb "value" envelope = Some (VDict d) ->
  ModeInfo_from_data (VDict envelope) = Ok m ->
  exists single multi : value,
    dict_lookup String.eqb "single" d = Some single /\
    dict_lookup String.eqb "multi" d = Some multi /\
    opt_obj_bool (single_mode m) = py_bool single /\
    opt_obj_bool (multi_mode m) = py_bool multi.
Proof.
  intros Henv H. unfold ModeInfo_from_data in H. cbn [py_getitem] in H.
  rewrite Henv in H. cbn [bind py_getitem] in H.
  destruct (dict_lookup String.eqb "single" d) as [single |]; [| discriminate].
  destruct (dict_lookup String.eqb "multi" d) as [multi |];
    [| cbn [bind] in H; destruct (py_bool single); cbn [bind] in H;
       [destruct (ModeInfoSingle_from_data single); discriminate | discriminate]].
  exists single, multi. cbn [bind] in H.
  destruct (py_bool single), (py_bool multi); cbn [bind] in H.
  - destruct (ModeInfoSingle_from_data single); [| discriminate].
    destruct (ModeInfoMulti_from_data multi); [| discriminate].
    injection H as <-. now repeat split.
  - destruct (ModeInfoSingle_from_data single); [| discriminate].
    injection H as <-. now repeat split.
  - destruct (ModeInfoMulti_from_data multi); [| discriminate].
    injection H as <-. now repeat split.
  - injection H as <-. now repeat split.
Qed.

(** X23: from a document to the wire the sign mode is lost.  A mode info
    read from a document whose "single" entry tests true serializes to the
    single variant with the mode number 1, whatever mode the document names
    and whatever its "multi" entry is. *)
Theorem ModeInfo_document_to_wire
        (envelope d : list (string * value)) (single : value) (m : ModeInfo) :
  dict_lookup String.eqb "value" envelope = Some (VDict d) ->
  dict_lookup String.eqb "single" d = Some single ->
  py_bool single = true ->
  ModeInfo_from_data (VDict envelope) = Ok m ->
  ModeInfo_to_proto m = Ok (mkModeInfo_pb (Some (mkModeInfoSingle_pb 1)) None).
Proof.
  intros Henv Hs Hb H. unfold ModeInfo_from_data in H. cbn [py_getitem] in H.
  rewrite Henv in H. cbn [bind py_getitem] in H. rewrite Hs in H.
  cbn [bind] in H. rewrite Hb in H. cbn [bind] in H.
  destruct (ModeInfoSingle_from_data single) as [s |]; [| discriminate].
  cbn [bind] in H. apply bind_Ok in H as (mm & _ & H). injection H as <-.
  reflexivity.
Qed.

End ModeInfoDocuments.

(** X22 on that document. *)
Lemma ModeInfo_from_data_variants_witness :
  exists single multi : value,
    dict_lookup String.eqb "single"
      [("single", VDict [("value", VDict [("mode", VStr "SIGN_MODE_LEGACY_AMINO_JSON")])]);
       ("multi", VNone)] = Some single /\
    dict_lookup String.eqb "multi"
      [("single", VDict [("value", VDict [("mode", VStr "SIGN_MODE_LEGACY_AMINO_JSON")])]);
       ("multi", VNone)] = Some multi /\
    opt_obj_bool (single_mode amino_mode_info) = py_bool single /\
    opt_obj_bool (multi_mode amino_mode_info) = py_bool multi.
Proof.
  exact (ModeInfo_from_data_variants amino_mode_doc _ amino_mode_info
           eq_refl eq_refl).
Defined.

(** X23 on that document: the wire names mode 1. *)
Lemma ModeInfo_document_to_wire_witness :
  @ModeInfo_to_proto sample amino_mode_info =
  Ok (mkModeInfo_pb (Some (mkModeInfoSingle_pb 1)) None).
Proof.
  exact (@ModeInfo_document_to_wire sample amino_mode_doc _ _ amino_mode_info
           eq_refl eq_refl eq_refl eq_refl).
Defined.
